(** * Umbra-AI backend: adapter, middleware and routes, embedded in Rocq

    The development follows the two source files of the repository:

    - [config/supabase.js]: the Backend Client Adapter (ten helpers around
      the managed backend client);
    - [routes/auth.js] and [routes/conversations.js]: the two Express
      routers.

    JavaScript values are modelled by [JsVal], exceptions by [JsError], an
    [async] function body by the state-and-exception monad [M] over a
    [World] that holds the managed store, the scripted behaviour of the
    external services and a log of the calls that reached them. *)

From Stdlib Require Import ZArith List String Ascii Bool Lia DecimalString.
From stdpp Require Import base option list gmap strings sorting.

Local Open Scope string_scope.
Local Open Scope Z_scope.

(** ** JavaScript values *)

Module Js.

(** JSON-shaped values as a request body or a column can carry them.
    Numbers are integers here (no handler does arithmetic on them) and
    an object or array is kept as its JSON text. *)
Inductive JsVal : Type :=
| JUndefined
| JNull
| JBool (b : bool)
| JNum (n : Z)
| JStr (s : string)
| JObj (json : string).

(** [ToBoolean]: what [!x], [x || y] and [if (x)] look at. *)
Definition truthy (v : JsVal) : bool :=
  match v with
  | JUndefined | JNull => false
  | JBool b => b
  | JNum n => negb (n =? 0)
  | JStr s => negb (String.eqb s "")
  | JObj _ => true
  end.

(** [x !== undefined] *)
Definition defined (v : JsVal) : bool :=
  match v with JUndefined => false | _ => true end.

(** [a || b] on values already evaluated on the left. *)
Definition or_else (a : JsVal) (b : unit -> JsVal) : JsVal :=
  if truthy a then a else b tt.

(** Exceptions a handler or a helper can see. *)
Inductive JsError : Type :=
| ReferenceError (ident : string)
| TypeError (msg : string)
| BackendError (msg : string).

Definition message (e : JsError) : string :=
  match e with
  | ReferenceError x => x ++ " is not defined"
  | TypeError m => m
  | BackendError m => m
  end.

(** [s.split(sep)[0]]: the text before the first separator. *)
Fixpoint before (sep : ascii) (s : string) : string :=
  match s with
  | EmptyString => EmptyString
  | String c rest => if Ascii.eqb c sep then EmptyString
                     else String c (before sep rest)
  end.

(** Completion of an evaluation: a value or a thrown exception. *)
Inductive Completion (A : Type) : Type :=
| Normal (a : A)
| Throw (e : JsError).
Arguments Normal {A} a.
Arguments Throw {A} e.

(** [v.split('@')[0]]: only strings have [split]. *)
Definition split_at_first (v : JsVal) : Completion JsVal :=
  match v with
  | JStr s => Normal (JStr (before "@"%char s))
  | JUndefined | JNull =>
      Throw (TypeError "Cannot read properties of undefined (reading 'split')")
  | _ => Throw (TypeError "split is not a function")
  end.

End Js.
Export Js.

(** ** Data model: rows of the managed store and provider records *)

Definition Id := string.
Definition Timestamp := Z.

Module User.
(** [user_metadata] may be absent; [email_confirmed_at] is [null] until
    the address is confirmed. *)
Record metadata := { full_name : JsVal }.
Record t := {
  id : Id;
  email : JsVal;
  email_confirmed_at : option Timestamp;
  user_metadata : option metadata
}.
End User.

Module UserProfile.
Record t := {
  id : Id;
  email : JsVal;
  full_name : JsVal;
  avatar_url : JsVal;
  subscription_tier : string;
  api_usage_count : Z;
  api_usage_limit : Z;
  updated_at : Timestamp
}.
End UserProfile.

Module Conversation.
Record t := {
  id : Id;
  user_id : Id;
  title : JsVal;
  thread_id : JsVal;
  is_archived : bool;
  created_at : Timestamp;
  updated_at : Timestamp
}.
End Conversation.

Module Message.
Record t := {
  id : Id;
  conversation_id : Id;
  user_id : Id;
  role : JsVal;
  content : JsVal;
  metadata : JsVal;
  created_at : Timestamp
}.
End Message.

Module ApiUsage.
Record t := {
  user_id : Id;
  endpoint : string;
  tokens_used : Z;
  cost_cents : Z
}.
End ApiUsage.

(** ** The world a request runs in *)

(** The managed relational store: one list of rows per table. *)
Record Store := {
  user_profiles : list UserProfile.t;
  conversations : list Conversation.t;
  messages : list Message.t;
  api_usage : list ApiUsage.t
}.

(** What the next call to the store does besides its query: nothing
    special, a rejected promise, or a reported [error]. *)
Inductive Fault : Type :=
| NoFault
| Rejects (e : JsError)
| Errors (e : JsError).

(** What the next call to the auth provider answers. The provider is an
    external collaborator: its answers are scripted, not computed. *)
Inductive ProviderReply : Type :=
| ProviderRejects (e : JsError)
| ProviderError (e : JsError)
| ProviderData (user : option User.t) (session : JsVal).

(** [process.env] *)
Record Env := {
  SUPABASE_URL : JsVal;
  SUPABASE_ANON_KEY : JsVal

}.

Inductive Call : Type :=
| AuthCall (method : string)
| DbCall (table verb : string).

Record World := {
  store : Store;
  faults : list Fault;
  provider : list ProviderReply;
  clock : Timestamp;
  next_id : N;
  (** whether the client object has a [sql] tag function *)
  sql_tag : bool;
  env : Env;
  (** the rate limiter's verdict for a tier: [true] when over quota *)
  over_quota : string -> bool;
  calls : list Call
}.

Definition with_store (s : Store) (w : World) : World :=
  {| store := s; faults := faults w; provider := provider w;
     clock := clock w; next_id := next_id w; sql_tag := sql_tag w;
     env := env w; over_quota := over_quota w; calls := calls w |}.

Definition with_faults (f : list Fault) (w : World) : World :=
  {| store := store w; faults := f; provider := provider w;
     clock := clock w; next_id := next_id w; sql_tag := sql_tag w;
     env := env w; over_quota := over_quota w; calls := calls w |}.

Definition with_provider (p : list ProviderReply) (w : World) : World :=
  {| store := store w; faults := faults w; provider := p;
     clock := clock w; next_id := next_id w; sql_tag := sql_tag w;
     env := env w; over_quota := over_quota w; calls := calls w |}.

(** One observable step of the outside world: the clock moves, the id
    supply is used up and the call is logged. *)
Definition step (c : option Call) (w : World) : World :=
  {| store := store w; faults := faults w; provider := provider w;
     clock := clock w + 1; next_id := N.succ (next_id w);
     sql_tag := sql_tag w; env := env w; over_quota := over_quota w;
     calls := match c with Some c => calls w ++ [c] | None => calls w end |}.

(** ** The monad of [async] function bodies *)

Definition M (A : Type) : Type := World -> Completion A * World.

Definition ret {A} (a : A) : M A := fun w => (Normal a, w).
Definition throw {A} (e : JsError) : M A := fun w => (Throw e, w).
Definition bind {A B} (m : M A) (k : A -> M B) : M B :=
  fun w => match m w with
           | (Normal a, w') => k a w'
           | (Throw e, w') => (Throw e, w')
           end.
(** [try { m } catch (error) { h error }] *)
Definition try_catch {A} (m : M A) (h : JsError -> M A) : M A :=
  fun w => match m w with
           | (Normal a, w') => (Normal a, w')
           | (Throw e, w') => h e w'
           end.
Definition lift {A} (c : Completion A) : M A := fun w => (c, w).

Declare Scope js_scope.
Delimit Scope js_scope with js.
Notation "'let*' x ':=' m 'in' k" := (bind m (fun x => k))
  (at level 10, x name, m at level 100, k at level 200,
   format "'[v' 'let*'  x  ':='  m  'in' '/' k ']'") : js_scope.
Notation "'do' m 'in' k" := (bind m (fun _ => k))
  (at level 10, m at level 100, k at level 200,
   format "'[v' 'do'  m  'in' '/' k ']'") : js_scope.
Local Open Scope js_scope.

(** [new Date()]: reads the clock, which then moves on. *)
Definition now : M Timestamp := fun w => (Normal (clock w), step None w).

(** [console.error(...)]: no effect on the world. *)
Definition console_error (label : string) (e : JsError) : M unit := ret tt.

(** An identifier of module scope: a [ReferenceError] unless the module
    declared or imported it. *)
Definition ident (scope : list string) (x : string) : M unit :=
  if bool_decide (x ∈ scope) then ret tt else throw (ReferenceError x).

(** ** The managed backend behind the client

    Each definition below is one awaited chain of the query builder as the
    source writes it ([from(..).select(..).eq(..).single()] and the like),
    run against the [Store]. A chain answers with [{ data, error }]. *)

Module Backend.

Record Reply (D : Type) := { data : option D; error : option JsError }.
Arguments data {D} r.
Arguments error {D} r.

Definition ok {D} (d : D) : Reply D := {| data := Some d; error := None |}.
Definition done_ {D} : Reply D := {| data := None; error := None |}.
Definition failed {D} (e : JsError) : Reply D :=
  {| data := None; error := Some e |}.

Definition no_single_row : JsError :=
  BackendError "JSON object requested, multiple (or no) rows returned".
Definition duplicate_key : JsError :=
  BackendError "duplicate key value violates unique constraint".
Definition bad_column : JsError :=
  BackendError "column cannot be set".
Definition bad_value : JsError :=
  BackendError "invalid input syntax for column type".

(** [.single()]: exactly one row, or an error. *)
Definition single {R} (rows : list R) : Reply R :=
  match rows with
  | [r] => ok r
  | _ => failed no_single_row
  end.

Definition fresh_id (n : N) : Id :=
  "id-" ++ NilEmpty.string_of_uint (N.to_uint n).

Definition pop_fault (w : World) : Fault * World :=
  match faults w with
  | [] => (NoFault, w)
  | f :: fs => (f, with_faults fs w)
  end.

(** One awaited chain on a table. The scripted fault decides whether the
    promise rejects, reports an error without touching the rows, or the
    query [run]s; a mutation that answers with an error leaves the store
    as it was. *)
Definition query {D} (table verb : string)
    (run : Timestamp -> Id -> Store -> Reply D * Store) : M (Reply D) :=
  fun w =>
    let (f, w1) := pop_fault w in
    let w2 := step (Some (DbCall table verb)) w1 in
    match f with
    | Rejects e => (Throw e, w2)
    | Errors e => (Normal (failed e), w2)
    | NoFault =>
        let (r, s') := run (clock w) (fresh_id (next_id w)) (store w) in
        (Normal r, with_store s' w2)
    end.

Definition with_user_profiles (l : list UserProfile.t) (s : Store) : Store :=
  {| user_profiles := l; conversations := conversations s;
     messages := messages s; api_usage := api_usage s |}.
Definition with_conversations (l : list Conversation.t) (s : Store) : Store :=
  {| user_profiles := user_profiles s; conversations := l;
     messages := messages s; api_usage := api_usage s |}.
Definition with_messages (l : list Message.t) (s : Store) : Store :=
  {| user_profiles := user_profiles s; conversations := conversations s;
     messages := l; api_usage := api_usage s |}.
Definition with_api_usage (l : list ApiUsage.t) (s : Store) : Store :=
  {| user_profiles := user_profiles s; conversations := conversations s;
     messages := messages s; api_usage := l |}.

(** Column types: a boolean column takes a JSON boolean, a timestamp
    column an instant. *)
Definition as_boolean (v : JsVal) : option bool :=
  match v with JBool b => Some b | _ => None end.
Definition as_timestamp (v : JsVal) : option Timestamp :=
  match v with JNum t => Some t | _ => None end.

Definition only_columns (cols : list string) (u : gmap string JsVal) : bool :=
  forallb (fun kv => bool_decide (kv.1 ∈ cols)) (map_to_list u).

(** *** Table [user_profiles] *)

(** [.select('*').eq('id', userId).single()] *)
Definition select_profile (userId : Id) : M (Reply UserProfile.t) :=
  query "user_profiles" "select" (fun _ _ s =>
    (single (filter (fun p => UserProfile.id p = userId) (user_profiles s)), s)).

(** [.insert([row]).select().single()]; the table is keyed by [id]. *)
Definition insert_profile (id : Id) (email full_name : JsVal)
    (tier : string) (count limit : Z) : M (Reply UserProfile.t) :=
  query "user_profiles" "insert" (fun t _ s =>
    match filter (fun p => UserProfile.id p = id) (user_profiles s) with
    | [] =>
        let row := {| UserProfile.id := id; UserProfile.email := email;
                      UserProfile.full_name := full_name;
                      UserProfile.avatar_url := JNull;
                      UserProfile.subscription_tier := tier;
                      UserProfile.api_usage_count := count;
                      UserProfile.api_usage_limit := limit;
                      UserProfile.updated_at := t |} in
        (ok row, with_user_profiles (user_profiles s ++ [row]) s)
    | _ => (failed duplicate_key, s)
    end).

Definition update_profile_row (u : gmap string JsVal) (p : UserProfile.t)
    : option UserProfile.t :=
  match (match u !! "updated_at" with
         | None => Some (UserProfile.updated_at p)
         | Some v => as_timestamp v
         end) with
  | None => None
  | Some t =>
      Some {| UserProfile.id := UserProfile.id p;
              UserProfile.email := UserProfile.email p;
              UserProfile.full_name :=
                default (UserProfile.full_name p) (u !! "full_name");
              UserProfile.avatar_url :=
                default (UserProfile.avatar_url p) (u !! "avatar_url");
              UserProfile.subscription_tier := UserProfile.subscription_tier p;
              UserProfile.api_usage_count := UserProfile.api_usage_count p;
              UserProfile.api_usage_limit := UserProfile.api_usage_limit p;
              UserProfile.updated_at := t |}
  end.

(** [.update(updates).eq('id', userId).select().single()] *)
Definition update_profile (updates : gmap string JsVal) (userId : Id)
    : M (Reply UserProfile.t) :=
  query "user_profiles" "update" (fun _ _ s =>
    if only_columns ["full_name"; "avatar_url"; "updated_at"] updates then
      match filter (fun p => UserProfile.id p = userId) (user_profiles s) with
      | [p] =>
          match update_profile_row updates p with
          | Some p' =>
              (ok p', with_user_profiles
                        (map (fun x => if decide (UserProfile.id x = userId)
                                       then p' else x) (user_profiles s)) s)
          | None => (failed bad_value, s)
          end
      | _ => (failed no_single_row, s)
      end
    else (failed bad_column, s)).

Definition add_usage (tokens : Z) (p : UserProfile.t) : UserProfile.t :=
  {| UserProfile.id := UserProfile.id p;
     UserProfile.email := UserProfile.email p;
     UserProfile.full_name := UserProfile.full_name p;
     UserProfile.avatar_url := UserProfile.avatar_url p;
     UserProfile.subscription_tier := UserProfile.subscription_tier p;
     UserProfile.api_usage_count := UserProfile.api_usage_count p + tokens;
     UserProfile.api_usage_limit := UserProfile.api_usage_limit p;
     UserProfile.updated_at := UserProfile.updated_at p |}.

(** [.update({ api_usage_count: api_usage_count + n }).eq('id', userId)] *)
Definition increment_usage (tokens : Z) (userId : Id) : M (Reply unit) :=
  query "user_profiles" "update" (fun _ _ s =>
    (done_, with_user_profiles
              (map (fun x => if decide (UserProfile.id x = userId)
                             then add_usage tokens x else x)
                   (user_profiles s)) s)).

(** *** Table [api_usage] *)

(** [.insert([row])] *)
Definition insert_api_usage (row : ApiUsage.t) : M (Reply unit) :=
  query "api_usage" "insert" (fun _ _ s =>
    (done_, with_api_usage (api_usage s ++ [row]) s)).

(** *** Table [conversations] *)

(** [.order('updated_at', { ascending: false })] *)
Definition newer_first (a b : Conversation.t) : Prop :=
  Conversation.updated_at b <= Conversation.updated_at a.
#[export] Instance newer_first_dec a b : Decision (newer_first a b).
Proof. unfold newer_first. apply _. Defined.

(** [.insert([row]).select().single()]; the store supplies the id, the
    archived flag and both timestamps. *)
Definition insert_conversation (userId : Id) (title threadId : JsVal)
    : M (Reply Conversation.t) :=
  query "conversations" "insert" (fun t i s =>
    let row := {| Conversation.id := i; Conversation.user_id := userId;
                  Conversation.title := title;
                  Conversation.thread_id := threadId;
                  Conversation.is_archived := false;
                  Conversation.created_at := t;
                  Conversation.updated_at := t |} in
    (ok row, with_conversations (conversations s ++ [row]) s)).

(** [.select('*').eq('user_id', userId).eq('is_archived', false)
     .order('updated_at', { ascending: false })] *)
Definition select_conversations (userId : Id)
    : M (Reply (list Conversation.t)) :=
  query "conversations" "select" (fun _ _ s =>
    (ok (merge_sort newer_first
           (filter (fun c => Conversation.is_archived c = false)
              (filter (fun c => Conversation.user_id c = userId)
                 (conversations s)))), s)).

Definition owned_conversation (conversationId userId : Id)
    (c : Conversation.t) : Prop :=
  Conversation.id c = conversationId /\ Conversation.user_id c = userId.
#[export] Instance owned_conversation_dec i u c
  : Decision (owned_conversation i u c).
Proof. unfold owned_conversation. apply _. Defined.

(** [.select('*').eq('id', conversationId).eq('user_id', userId).single()] *)
Definition select_conversation (conversationId userId : Id)
    : M (Reply Conversation.t) :=
  query "conversations" "select" (fun _ _ s =>
    (single (filter (owned_conversation conversationId userId)
               (conversations s)), s)).

(** [.select('id').eq('id', conversationId).eq('user_id', userId).single()] *)
Definition select_conversation_id (conversationId userId : Id)
    : M (Reply Id) :=
  query "conversations" "select" (fun _ _ s =>
    (single (Conversation.id <$>
               filter (owned_conversation conversationId userId)
                 (conversations s)), s)).

Definition update_conversation_row (u : gmap string JsVal)
    (c : Conversation.t) : option Conversation.t :=
  match (match u !! "is_archived" with
         | None => Some (Conversation.is_archived c)
         | Some v => as_boolean v
         end) with
  | None => None
  | Some a =>
      Some {| Conversation.id := Conversation.id c;
              Conversation.user_id := Conversation.user_id c;
              Conversation.title :=
                default (Conversation.title c) (u !! "title");
              Conversation.thread_id := Conversation.thread_id c;
              Conversation.is_archived := a;
              Conversation.created_at := Conversation.created_at c;
              Conversation.updated_at := Conversation.updated_at c |}
  end.

(** [.update(updates).eq('id', conversationId).eq('user_id', userId)
     .select().single()] *)
Definition update_conversation (updates : gmap string JsVal)
    (conversationId userId : Id) : M (Reply Conversation.t) :=
  query "conversations" "update" (fun _ _ s =>
    if only_columns ["title"; "is_archived"] updates then
      match filter (owned_conversation conversationId userId)
              (conversations s) with
      | [c] =>
          match update_conversation_row updates c with
          | Some c' =>
              (ok c', with_conversations
                        (map (fun x =>
                                if decide (owned_conversation
                                             conversationId userId x)
                                then c' else x) (conversations s)) s)
          | None => (failed bad_value, s)
          end
      | _ => (failed no_single_row, s)
      end
    else (failed bad_column, s)).

(** *** Table [messages] *)

(** [.order('created_at', { ascending: true })] *)
Definition older_first (a b : Message.t) : Prop :=
  Message.created_at a <= Message.created_at b.
#[export] Instance older_first_dec a b : Decision (older_first a b).
Proof. unfold older_first. apply _. Defined.

(** [.insert([row]).select().single()] *)
Definition insert_message (conversationId userId : Id)
    (role content metadata : JsVal) : M (Reply Message.t) :=
  query "messages" "insert" (fun t i s =>
    let row := {| Message.id := i;
                  Message.conversation_id := conversationId;
                  Message.user_id := userId; Message.role := role;
                  Message.content := content;
                  Message.metadata := metadata;
                  Message.created_at := t |} in
    (ok row, with_messages (messages s ++ [row]) s)).

(** [.select('*').eq('conversation_id', conversationId)
     .eq('user_id', userId).order('created_at', { ascending: true })] *)
Definition select_messages (conversationId userId : Id)
    : M (Reply (list Message.t)) :=
  query "messages" "select" (fun _ _ s =>
    (ok (merge_sort older_first
           (filter (fun m => Message.user_id m = userId)
              (filter (fun m => Message.conversation_id m = conversationId)
                 (messages s)))), s)).

(** *** The auth provider ([supabase.auth]) *)

Record AuthData := { user : option User.t; session : JsVal }.

Definition pop_provider (w : World) : option ProviderReply * World :=
  match provider w with
  | [] => (None, w)
  | r :: rs => (Some r, with_provider rs w)
  end.

(** One awaited call of a provider method; with no scripted answer left
    the provider reports an error. *)
Definition auth (method : string) : M (Reply AuthData) :=
  fun w =>
    let (r, w1) := pop_provider w in
    let w2 := step (Some (AuthCall method)) w1 in
    let none := {| user := None; session := JNull |} in
    match r with
    | Some (ProviderRejects e) => (Throw e, w2)
    | Some (ProviderError e) =>
        (Normal {| data := Some none; error := Some e |}, w2)
    | Some (ProviderData u s) =>
        (Normal (ok {| user := u; session := s |}), w2)
    | None =>
        (Normal {| data := Some none;
                   error := Some (BackendError "provider unavailable") |}, w2)
    end.

(** The tagged template [supabase.sql`...`]: a [TypeError] when the
    client has no such member. *)
Definition sql : M unit :=
  fun w => if sql_tag w then (Normal tt, w)
           else (Throw (TypeError "supabase.sql is not a function"), w).

End Backend.

(** ** [config/supabase.js]: the Backend Client Adapter

    A result that is a record or [null] is an [option]; the two listing
    helpers return what the reply holds in [data], or the empty array from
    their [catch]. Parameters with a default take it when the argument is
    [undefined] ([None] for the two numbers of [updateApiUsage]). *)

Module Supabase.
Import Backend.

(** [if (error) throw error; return data;] *)
Definition data_or_throw {D} (r : Reply D) : M (option D) :=
  match error r with
  | Some e => throw e
  | None => ret (data r)
  end.

(** A parameter with a default value: the default applies to [undefined]. *)
Definition param_default (v d : JsVal) : JsVal :=
  if defined v then v else d.

Definition verifyToken (token : string) : M (option User.t) :=
  try_catch
    (let* r := auth "getUser" in
     match data r with
     | None => throw (TypeError "Cannot destructure property 'user'")
     | Some d =>
         match error r with
         | Some e => throw e
         | None => ret (user d)
         end
     end)
    (fun e => do console_error "Token verification error:" e in ret None).

Definition getUserProfile (userId : Id) : M (option UserProfile.t) :=
  try_catch
    (let* r := select_profile userId in data_or_throw r)
    (fun e => do console_error "Error getting user profile:" e in ret None).

(** [user.user_metadata?.full_name] *)
Definition metadata_full_name (u : User.t) : JsVal :=
  match User.user_metadata u with
  | None => JUndefined
  | Some m => User.full_name m
  end.

Definition createUserProfile (user : option User.t)
    : M (option UserProfile.t) :=
  try_catch
    (match user with
     | None => throw (TypeError "Cannot read properties of null (reading 'id')")
     | Some u =>
         let* full_name :=
           (if truthy (metadata_full_name u) then ret (metadata_full_name u)
            else lift (split_at_first (User.email u))) in
         let* r := insert_profile (User.id u) (User.email u) full_name
                     "free" 0 100 in
         data_or_throw r
     end)
    (fun e => do console_error "Error creating user profile:" e in ret None).

Definition updateApiUsage (userId : Id) (tokensUsed costCents : option Z)
    : M bool :=
  let tokensUsed := default 1 tokensUsed in
  let costCents := default 0 costCents in
  try_catch
    (do insert_api_usage
          {| ApiUsage.user_id := userId;
             ApiUsage.endpoint := "/api/chat/completion";
             ApiUsage.tokens_used := tokensUsed;
             ApiUsage.cost_cents := costCents |} in
     do sql in
     let* r := increment_usage tokensUsed userId in
     match error r with
     | Some e => throw e
     | None => ret true
     end)
    (fun e => do console_error "Error updating API usage:" e in ret false).

Definition checkApiQuota (userId : Id) : M bool :=
  try_catch
    (let* profile := getUserProfile userId in
     match profile with
     | None => ret false
     | Some p =>
         ret (UserProfile.api_usage_count p <? UserProfile.api_usage_limit p)
     end)
    (fun e => do console_error "Error checking API quota:" e in ret false).

Definition createConversation (userId : Id) (title threadId : JsVal)
    : M (option Conversation.t) :=
  let title := param_default title (JStr "New Conversation") in
  let threadId := param_default threadId JNull in
  try_catch
    (let* r := insert_conversation userId title threadId in data_or_throw r)
    (fun e => do console_error "Error creating conversation:" e in ret None).

Definition getUserConversations (userId : Id)
    : M (option (list Conversation.t)) :=
  try_catch
    (let* r := select_conversations userId in data_or_throw r)
    (fun e => do console_error "Error getting user conversations:" e in
              ret (Some [])).

Definition saveMessage (conversationId userId : Id)
    (role content metadata : JsVal) : M (option Message.t) :=
  let metadata := param_default metadata (JObj "{}") in
  try_catch
    (let* r := insert_message conversationId userId role content metadata in
     data_or_throw r)
    (fun e => do console_error "Error saving message:" e in ret None).

Definition getConversationMessages (conversationId userId : Id)
    : M (option (list Message.t)) :=
  try_catch
    (let* r := select_messages conversationId userId in data_or_throw r)
    (fun e => do console_error "Error getting conversation messages:" e in
              ret (Some [])).

Definition updateConversation (conversationId userId : Id)
    (updates : gmap string JsVal) : M (option Conversation.t) :=
  try_catch
    (let* r := update_conversation updates conversationId userId in
     data_or_throw r)
    (fun e => do console_error "Error updating conversation:" e in ret None).

End Supabase.

(** ** Requests, responses and the Express router *)

Module Http.

Inductive Method : Type := GET | POST | PUT | DELETE.
#[export] Instance Method_eq_dec : EqDecision Method.
Proof. solve_decision. Defined.

(** The request object as the handlers read it. [req_path] is the path
    below the router's mount point, split at [/]; [req_bearer] is the
    bearer token of the authorization header; [req_body] is what the JSON
    body parser left (an object, empty when nothing was sent);
    [req_params], [req_user] and [req_profile] are filled in by the router
    and the auth middleware. *)
Record Request := {
  req_method : Method;
  req_path : list string;
  req_bearer : option string;
  req_body : gmap string JsVal;
  req_params : gmap string string;
  req_user : option User.t;
  req_profile : option UserProfile.t
}.

Record UserSummary := {
  id : Id;
  email : JsVal;
  emailConfirmed : bool
}.

Inductive Body : Type :=
| ErrorBody (error message : string)
| SuccessBody (message : string)
| AuthBody (message : string) (user : UserSummary)
    (profile : option UserProfile.t) (session : JsVal)
| ProfileBody (user : UserSummary) (profile : option UserProfile.t)
| ProfileUpdated (message : string) (profile : option UserProfile.t)
| SessionBody (message : string) (session : JsVal)
| HealthBody (status service : string) (supabase_configured : option bool)
    (timestamp : Timestamp)
| ConversationList (conversations : list Conversation.t) (count : nat)
| ConversationBody (conversation : Conversation.t) (message : string)
| ConversationDetail (conversation : Conversation.t)
    (messages : list Message.t) (messageCount : nat)
| MessageBody (message : Message.t)
| MessageList (messages : list Message.t) (count : nat).

Record Response := { status : Z; body : Body }.

(** [res.status(code).json(body)] and [res.json(body)] *)
Definition respond (code : Z) (b : Body) : M Response :=
  ret {| status := code; body := b |}.
Definition json (b : Body) : M Response := respond 200 b.

(** The [status] field of a body, when it has one. *)
Definition status_field (b : Body) : option string :=
  match b with
  | HealthBody s _ _ _ => Some s
  | _ => None
  end.

(** [const { name } = req.body] *)
Definition field (req : Request) (name : string) : JsVal :=
  default JUndefined (req_body req !! name).

(** [const { name } = req.params]; a missing parameter reaches the query
    builder as the text of [undefined]. *)
Definition param (req : Request) (name : string) : Id :=
  default "undefined" (req_params req !! name).

(** [req.user.id] *)
Definition user_id (req : Request) : M Id :=
  match req_user req with
  | Some u => ret (User.id u)
  | None => throw (TypeError "Cannot read properties of undefined (reading 'id')")
  end.

Definition summary (u : User.t) : UserSummary :=
  {| id := User.id u; email := User.email u;
     emailConfirmed := bool_decide (User.email_confirmed_at u <> None) |}.

Definition attach (u : User.t) (p : option UserProfile.t) (req : Request)
    : Request :=
  {| req_method := req_method req; req_path := req_path req;
     req_bearer := req_bearer req; req_body := req_body req;
     req_params := req_params req; req_user := Some u; req_profile := p |}.

Definition with_params (ps : gmap string string) (req : Request) : Request :=
  {| req_method := req_method req; req_path := req_path req;
     req_bearer := req_bearer req; req_body := req_body req;
     req_params := ps; req_user := req_user req;
     req_profile := req_profile req |}.

(** A middleware answers itself or hands the request on ([next()]). *)
Definition Handler := Request -> M Response.
Definition Middleware := Request -> M (Response + Request).

Inductive Segment : Type := Lit (s : string) | Param (name : string).

Record Route := {
  route_method : Method;
  route_path : list Segment;
  route_middleware : list Middleware;
  route_handler : Handler
}.

(** [router.METHOD(path, ...middleware, handler)] *)
Definition route (m : Method) (p : list Segment) (ms : list Middleware)
    (h : Handler) : Route :=
  {| route_method := m; route_path := p; route_middleware := ms;
     route_handler := h |}.

(** A route path against a request path: literal segments must be equal,
    [:name] takes any one non-empty segment. *)
Fixpoint match_path (pat : list Segment) (path : list string)
    : option (gmap string string) :=
  match pat, path with
  | [], [] => Some ∅
  | Lit s :: pat', x :: path' =>
      if String.eqb s x then match_path pat' path' else None
  | Param n :: pat', x :: path' =>
      if String.eqb x "" then None
      else (fun ps => <[n := x]> ps) <$> match_path pat' path'
  | _, _ => None
  end.

Fixpoint run_chain (ms : list Middleware) (h : Handler) (req : Request)
    : M Response :=
  match ms with
  | [] => h req
  | m :: ms' =>
      let* r := m req in
      match r with
      | inl resp => ret resp
      | inr req' => run_chain ms' h req'
      end
  end.

(** Routes are tried in the order they were registered; the first whose
    method and path match takes the request. *)
Fixpoint dispatch (routes : list Route) (req : Request) : M Response :=
  match routes with
  | [] => respond 404 (ErrorBody "Not Found" "Cannot serve this path")
  | r :: routes' =>
      if bool_decide (route_method r = req_method req) then
        match match_path (route_path r) (req_path req) with
        | Some ps => run_chain (route_middleware r) (route_handler r)
                       (with_params ps req)
        | None => dispatch routes' req
        end
      else dispatch routes' req
  end.

End Http.

(** ** [middleware/auth.js] *)

Module Middleware.
Import Http Supabase.

(** Modelled from the spec: the auth middleware ([authenticateUser]),
    whose source file is not part of the reviewed sources. It takes the
    bearer token of the request; without one it answers 401 and halts;
    it calls [verifyToken] and answers 401 on [null]; otherwise it loads
    the profile (absence tolerated), attaches user and profile to the
    request and lets the chain proceed. *)
Definition authenticateUser : Middleware := fun req =>
  match req_bearer req with
  | None =>
      let* resp := respond 401 (ErrorBody "Unauthorized" "Missing token") in
      ret (inl resp)
  | Some token =>
      let* user := verifyToken token in
      match user with
      | None =>
          let* resp := respond 401
                         (ErrorBody "Unauthorized" "Invalid or expired token") in
          ret (inl resp)
      | Some u =>
          let* profile := getUserProfile (User.id u) in
          ret (inr (attach u profile req))
      end
  end.

(** Modelled from the spec: the rate-limit middleware
    ([rateLimitByTier]), whose source file is not part of the reviewed
    sources. It reads the tier of the attached profile (the free tier
    when there is none) and answers 429 when the policy for that tier is
    violated; the policy itself is configuration ([over_quota]). *)
Definition rateLimitByTier : Middleware := fun req w =>
  let tier := match req_profile req with
              | Some p => UserProfile.subscription_tier p
              | None => "free"
              end in
  if over_quota w tier then
    (Normal (inl {| status := 429;
                    body := ErrorBody "Too many requests"
                              "Rate limit exceeded for your tier" |}), w)
  else (Normal (inr req), w).

End Middleware.

(** ** [routes/auth.js] *)

Module AuthRoutes.
Import Http Backend Supabase Middleware.

(** What the module declares or imports at its top. *)
Definition scope : list string :=
  ["express"; "router"; "supabase"; "getUserProfile"; "createUserProfile";
   "authenticateUser"].

Definition internal_error (label message : string) (e : JsError)
    : M Response :=
  do console_error label e in
  respond 500 (ErrorBody "Internal server error" message).

(** [data.user] of a provider answer *)
Definition data_user (r : Reply AuthData) : M (option User.t) :=
  match data r with
  | Some d => ret (user d)
  | None => throw (TypeError "Cannot read properties of null (reading 'user')")
  end.
Definition data_session (r : Reply AuthData) : M JsVal :=
  match data r with
  | Some d => ret (session d)
  | None => throw (TypeError "Cannot read properties of null (reading 'session')")
  end.

(** [router.post('/signup', ...)] *)
Definition post_signup : Handler := fun req =>
  try_catch
    (let email := field req "email" in
     let password := field req "password" in
     let fullName := field req "fullName" in
     if negb (truthy email) || negb (truthy password) then
       respond 400 (ErrorBody "Missing required fields"
                      "Email and password are required")
     else
       do ident scope "supabase" in
       let* full_name :=
         (if truthy fullName then ret fullName
          else lift (split_at_first email)) in
       let* r := auth "signUp" in
       match error r with
       | Some e => respond 400 (ErrorBody "Signup failed" (Js.message e))
       | None =>
           let* u := data_user r in
           match u with
           | Some u =>
               do ident scope "getUserProfile" in
               let* profile := getUserProfile (User.id u) in
               let* profile :=
                 match profile with
                 | Some p => ret (Some p)
                 | None =>
                     do ident scope "createUserProfile" in
                     createUserProfile (Some u)
                 end in
               let* session := data_session r in
               respond 201 (AuthBody "User created successfully"
                              (summary u) profile session)
           | None =>
               respond 400 (ErrorBody "Signup failed"
                              "Failed to create user account")
           end
       end)
    (internal_error "Signup error:" "An error occurred during signup").

(** [router.post('/signin', ...)] *)
Definition post_signin : Handler := fun req =>
  try_catch
    (let email := field req "email" in
     let password := field req "password" in
     if negb (truthy email) || negb (truthy password) then
       respond 400 (ErrorBody "Missing required fields"
                      "Email and password are required")
     else
       do ident scope "supabase" in
       let* r := auth "signInWithPassword" in
       match error r with
       | Some e =>
           respond 401 (ErrorBody "Authentication failed" (Js.message e))
       | None =>
           do ident scope "getUserProfile" in
           let* u := data_user r in
           match u with
           | None =>
               throw (TypeError "Cannot read properties of null (reading 'id')")
           | Some u =>
               let* profile := getUserProfile (User.id u) in
               let* session := data_session r in
               json (AuthBody "Signed in successfully" (summary u)
                       profile session)
           end
       end)
    (internal_error "Signin error:" "An error occurred during signin").

(** [router.post('/signout', authenticateUser, ...)] *)
Definition post_signout : Handler := fun req =>
  try_catch
    (do ident scope "supabase" in
     let* r := auth "signOut" in
     match error r with
     | Some e => respond 400 (ErrorBody "Signout failed" (Js.message e))
     | None => json (SuccessBody "Signed out successfully")
     end)
    (internal_error "Signout error:" "An error occurred during signout").

(** [router.get('/profile', authenticateUser, ...)] *)
Definition get_profile : Handler := fun req =>
  try_catch
    (match req_user req with
     | None =>
         throw (TypeError "Cannot read properties of undefined (reading 'id')")
     | Some u => json (ProfileBody (summary u) (req_profile req))
     end)
    (internal_error "Profile fetch error:"
       "An error occurred while fetching profile").

(** The [updates] object of [PUT /profile]: a field is set only when the
    body defines it; the timestamp is always set. *)
Definition profile_updates (fullName avatarUrl : JsVal) (t : Timestamp)
    : gmap string JsVal :=
  let updates : gmap string JsVal := ∅ in
  let updates := if defined fullName
                 then <["full_name" := fullName]> updates else updates in
  let updates := if defined avatarUrl
                 then <["avatar_url" := avatarUrl]> updates else updates in
  <["updated_at" := JNum t]> updates.

(** [router.put('/profile', authenticateUser, ...)] *)
Definition put_profile : Handler := fun req =>
  try_catch
    (let fullName := field req "fullName" in
     let avatarUrl := field req "avatarUrl" in
     let* userId := user_id req in
     let* t := now in
     let updates := profile_updates fullName avatarUrl t in
     do ident scope "supabase" in
     let* r := update_profile updates userId in
     match error r with
     | Some e =>
         respond 400 (ErrorBody "Profile update failed" (Js.message e))
     | None => json (ProfileUpdated "Profile updated successfully" (data r))
     end)
    (internal_error "Profile update error:"
       "An error occurred while updating profile").

(** [router.post('/reset-password', ...)]; the redirect address built
    from the configuration goes to the provider with the call. *)
Definition post_reset_password : Handler := fun req =>
  try_catch
    (let email := field req "email" in
     if negb (truthy email) then
       respond 400 (ErrorBody "Missing email"
                      "Email is required for password reset")
     else
       do ident scope "supabase" in
       let* r := auth "resetPasswordForEmail" in
       match error r with
       | Some e =>
           respond 400 (ErrorBody "Password reset failed" (Js.message e))
       | None => json (SuccessBody "Password reset email sent successfully")
       end)
    (internal_error "Password reset error:"
       "An error occurred during password reset").

(** [router.put('/password', authenticateUser, ...)] *)
Definition put_password : Handler := fun req =>
  try_catch
    (let newPassword := field req "newPassword" in
     if negb (truthy newPassword) then
       respond 400 (ErrorBody "Missing password" "New password is required")
     else
       do ident scope "supabase" in
       let* r := auth "updateUser" in
       match error r with
       | Some e =>
           respond 400 (ErrorBody "Password update failed" (Js.message e))
       | None => json (SuccessBody "Password updated successfully")
       end)
    (internal_error "Password update error:"
       "An error occurred while updating password").

(** [router.post('/refresh', ...)] *)
Definition post_refresh : Handler := fun req =>
  try_catch
    (let refreshToken := field req "refreshToken" in
     if negb (truthy refreshToken) then
       respond 400 (ErrorBody "Missing refresh token"
                      "Refresh token is required")
     else
       do ident scope "supabase" in
       let* r := auth "refreshSession" in
       match error r with
       | Some e =>
           respond 401 (ErrorBody "Token refresh failed" (Js.message e))
       | None =>
           let* session := data_session r in
           json (SessionBody "Session refreshed successfully" session)
       end)
    (internal_error "Token refresh error:"
       "An error occurred during token refresh").

(** [router.get('/health', ...)] *)
Definition get_health : Handler := fun req w =>
  let configured := truthy (SUPABASE_URL (env w))
                    && truthy (SUPABASE_ANON_KEY (env w)) in
  (let* t := now in
   json (HealthBody "OK" "Authentication API" (Some configured) t)) w.

(** The router, in registration order. *)
Definition router : list Route :=
  [ route POST [Lit "signup"] [] post_signup;
    route POST [Lit "signin"] [] post_signin;
    route POST [Lit "signout"] [authenticateUser] post_signout;
    route GET [Lit "profile"] [authenticateUser] get_profile;
    route PUT [Lit "profile"] [authenticateUser] put_profile;
    route POST [Lit "reset-password"] [] post_reset_password;
    route PUT [Lit "password"] [authenticateUser] put_password;
    route POST [Lit "refresh"] [] post_refresh;
    route GET [Lit "health"] [] get_health ].

End AuthRoutes.

(** ** [routes/conversations.js] *)

Module ConversationRoutes.
Import Http Backend Supabase Middleware.

(** What the module declares or imports at its top: the five adapter
    helpers and the two middlewares. The client handle [supabase] is not
    among them. *)
Definition scope : list string :=
  ["express"; "router"; "createConversation"; "getUserConversations";
   "getConversationMessages"; "updateConversation"; "saveMessage";
   "authenticateUser"; "rateLimitByTier"].

Definition failure (label error message : string) (e : JsError)
    : M Response :=
  do console_error label e in
  respond 500 (ErrorBody error message).

Definition not_found : M Response :=
  respond 404 (ErrorBody "Conversation not found"
    "The requested conversation does not exist or you do not have access to it").

(** [xs.length] of a helper's result *)
Definition with_length {A B} (xs : option (list A))
    (k : list A -> nat -> M B) : M B :=
  match xs with
  | Some l => k l (length l)
  | None =>
      throw (TypeError "Cannot read properties of null (reading 'length')")
  end.

(** [router.get('/', authenticateUser, ...)] *)
Definition get_conversations : Handler := fun req =>
  try_catch
    (do ident scope "getUserConversations" in
     let* userId := user_id req in
     let* conversations := getUserConversations userId in
     with_length conversations (fun l n => json (ConversationList l n)))
    (failure "Error fetching conversations:" "Failed to fetch conversations"
       "An error occurred while fetching your conversations").

(** [router.post('/', authenticateUser, rateLimitByTier, ...)] *)
Definition post_conversation : Handler := fun req =>
  try_catch
    (let title := field req "title" in
     let threadId := field req "threadId" in
     let* userId := user_id req in
     do ident scope "createConversation" in
     let* conversation :=
       createConversation userId
         (or_else title (fun _ => JStr "New Conversation")) threadId in
     match conversation with
     | None =>
         respond 500 (ErrorBody "Failed to create conversation"
                        "An error occurred while creating the conversation")
     | Some c =>
         respond 201 (ConversationBody c "Conversation created successfully")
     end)
    (failure "Error creating conversation:" "Failed to create conversation"
       "An error occurred while creating the conversation").

(** [router.get('/:conversationId', authenticateUser, ...)] *)
Definition get_conversation : Handler := fun req =>
  try_catch
    (let conversationId := param req "conversationId" in
     let* userId := user_id req in
     do ident scope "supabase" in
     let* r := select_conversation conversationId userId in
     match error r, data r with
     | None, Some conversation =>
         do ident scope "getConversationMessages" in
         let* messages := getConversationMessages conversationId userId in
         with_length messages (fun l n =>
           json (ConversationDetail conversation l n))
     | _, _ => not_found
     end)
    (failure "Error fetching conversation:" "Failed to fetch conversation"
       "An error occurred while fetching the conversation").

(** The [updates] object of [PUT /:conversationId]. *)
Definition conversation_updates (title isArchived : JsVal)
    : gmap string JsVal :=
  let updates : gmap string JsVal := ∅ in
  let updates := if defined title
                 then <["title" := title]> updates else updates in
  if defined isArchived
  then <["is_archived" := isArchived]> updates else updates.

(** [router.put('/:conversationId', authenticateUser, ...)] *)
Definition put_conversation : Handler := fun req =>
  try_catch
    (let conversationId := param req "conversationId" in
     let title := field req "title" in
     let isArchived := field req "isArchived" in
     let* userId := user_id req in
     let updates := conversation_updates title isArchived in
     do ident scope "updateConversation" in
     let* updatedConversation :=
       updateConversation conversationId userId updates in
     match updatedConversation with
     | None => not_found
     | Some c => json (ConversationBody c "Conversation updated successfully")
     end)
    (failure "Error updating conversation:" "Failed to update conversation"
       "An error occurred while updating the conversation").

(** [router.delete('/:conversationId', authenticateUser, ...)] *)
Definition delete_conversation : Handler := fun req =>
  try_catch
    (let conversationId := param req "conversationId" in
     let* userId := user_id req in
     do ident scope "updateConversation" in
     let* updatedConversation :=
       updateConversation conversationId userId
         {[ "is_archived" := JBool true ]} in
     match updatedConversation with
     | None => not_found
     | Some _ => json (SuccessBody "Conversation archived successfully")
     end)
    (failure "Error archiving conversation:" "Failed to archive conversation"
       "An error occurred while archiving the conversation").

(** [router.post('/:conversationId/messages', authenticateUser,
     rateLimitByTier, ...)] *)
Definition post_message : Handler := fun req =>
  try_catch
    (let conversationId := param req "conversationId" in
     let role := field req "role" in
     let content := field req "content" in
     let metadata := field req "metadata" in
     let* userId := user_id req in
     if negb (truthy role) || negb (truthy content) then
       respond 400 (ErrorBody "Missing required fields"
                      "Role and content are required")
     else
       do ident scope "supabase" in
       let* r := select_conversation_id conversationId userId in
       match error r, data r with
       | None, Some _ =>
           do ident scope "saveMessage" in
           let* message :=
             saveMessage conversationId userId role content
               (or_else metadata (fun _ => JObj "{}")) in
           match message with
           | None =>
               respond 500 (ErrorBody "Failed to save message"
                              "An error occurred while saving the message")
           | Some m => respond 201 (MessageBody m)
           end
       | _, _ => not_found
       end)
    (failure "Error saving message:" "Failed to save message"
       "An error occurred while saving the message").

(** [router.get('/:conversationId/messages', authenticateUser, ...)] *)
Definition get_messages : Handler := fun req =>
  try_catch
    (let conversationId := param req "conversationId" in
     let* userId := user_id req in
     do ident scope "supabase" in
     let* r := select_conversation_id conversationId userId in
     match error r, data r with
     | None, Some _ =>
         do ident scope "getConversationMessages" in
         let* messages := getConversationMessages conversationId userId in
         with_length messages (fun l n => json (MessageList l n))
     | _, _ => not_found
     end)
    (failure "Error fetching messages:" "Failed to fetch messages"
       "An error occurred while fetching the messages").

(** [router.get('/health', ...)] *)
Definition get_health : Handler := fun req =>
  let* t := now in
  json (HealthBody "OK" "Conversations API" None t).

(** The router, in registration order. *)
Definition router : list Route :=
  [ route GET [] [authenticateUser] get_conversations;
    route POST [] [authenticateUser; rateLimitByTier] post_conversation;
    route GET [Param "conversationId"] [authenticateUser] get_conversation;
    route PUT [Param "conversationId"] [authenticateUser] put_conversation;
    route DELETE [Param "conversationId"] [authenticateUser]
      delete_conversation;
    route POST [Param "conversationId"; Lit "messages"]
      [authenticateUser; rateLimitByTier] post_message;
    route GET [Param "conversationId"; Lit "messages"] [authenticateUser]
      get_messages;
    route GET [Lit "health"] [] get_health ].

End ConversationRoutes.

(** * Properties *)

(** ** Vocabulary of the statements *)

(** The fault scripted for the next store call, for the [n]-th one from
    now, and the provider's next answer. *)
Definition next_fault (w : World) : Fault := (Backend.pop_fault w).1.
Definition nth_fault (n : nat) (w : World) : Fault := nth n (faults w) NoFault.
Definition next_reply (w : World) : option ProviderReply :=
  (Backend.pop_provider w).1.

(** A computation that completes normally from every world. *)
Definition never_raises {A} (m : M A) : Prop :=
  forall w, exists a w', m w = (Normal a, w').

(** A computation whose result is [sentinel] whenever the store call it
    makes next rejects or reports an error. *)
Definition store_failure_gives {A} (m : M A) (sentinel : A) : Prop :=
  forall w, next_fault w <> NoFault -> (m w).1 = Normal sentinel.

(** The same for a call to the auth provider. *)
Definition provider_failure_gives {A} (m : M A) (sentinel : A) : Prop :=
  forall w, (forall u s, next_reply w <> Some (ProviderData u s)) ->
            (m w).1 = Normal sentinel.

(** The profile of a user in the store: the one row keyed by the id. *)
Definition profile_of (userId : Id) (s : Store) : option UserProfile.t :=
  match filter (fun p => UserProfile.id p = userId) (user_profiles s) with
  | [p] => Some p
  | _ => None
  end.

(** The row [createUserProfile] hands to the store. *)
Definition fresh_profile (u : User.t) (full_name : JsVal) (t : Timestamp)
    : UserProfile.t :=
  {| UserProfile.id := User.id u; UserProfile.email := User.email u;
     UserProfile.full_name := full_name; UserProfile.avatar_url := JNull;
     UserProfile.subscription_tier := "free";
     UserProfile.api_usage_count := 0; UserProfile.api_usage_limit := 100;
     UserProfile.updated_at := t |}.

(** The rows [getConversationMessages] asks for. *)
Definition messages_of (conversationId userId : Id) (s : Store)
    : list Message.t :=
  filter (fun m => Message.user_id m = userId)
    (filter (fun m => Message.conversation_id m = conversationId)
       (messages s)).

(** The rows [getUserConversations] asks for. *)
Definition listed (userId : Id) (s : Store) : list Conversation.t :=
  filter (fun c => Conversation.is_archived c = false)
    (filter (fun c => Conversation.user_id c = userId) (conversations s)).

(** The row [DELETE /:conversationId] leaves in place of [c], and the
    store after it. *)
Definition archived (c : Conversation.t) : Conversation.t :=
  {| Conversation.id := Conversation.id c;
     Conversation.user_id := Conversation.user_id c;
     Conversation.title := Conversation.title c;
     Conversation.thread_id := Conversation.thread_id c;
     Conversation.is_archived := true;
     Conversation.created_at := Conversation.created_at c;
     Conversation.updated_at := Conversation.updated_at c |}.

Definition archive_in (conversationId userId : Id) (c : Conversation.t)
    (s : Store) : Store :=
  Backend.with_conversations
    (map (fun x => if decide (Backend.owned_conversation
                                conversationId userId x)
                   then archived c else x) (conversations s)) s.

(** ** A small world to run requests in *)

Module Sample.
Import Http.

Definition alice : User.t :=
  {| User.id := "u-alice"; User.email := JStr "alice@example.org";
     User.email_confirmed_at := Some 3; User.user_metadata := None |}.

Definition alice_profile : UserProfile.t :=
  {| UserProfile.id := "u-alice";
     UserProfile.email := JStr "alice@example.org";
     UserProfile.full_name := JStr "Alice";
     UserProfile.avatar_url := JNull;
     UserProfile.subscription_tier := "free";
     UserProfile.api_usage_count := 7;
     UserProfile.api_usage_limit := 100;
     UserProfile.updated_at := 4 |}.

Definition conversation (id owner : Id) (archived : bool) (t : Timestamp)
    : Conversation.t :=
  {| Conversation.id := id; Conversation.user_id := owner;
     Conversation.title := JStr "Draft"; Conversation.thread_id := JNull;
     Conversation.is_archived := archived;
     Conversation.created_at := t; Conversation.updated_at := t |}.

Definition message (id conv owner : Id) (t : Timestamp) : Message.t :=
  {| Message.id := id; Message.conversation_id := conv;
     Message.user_id := owner; Message.role := JStr "user";
     Message.content := JStr "hello"; Message.metadata := JObj "{}";
     Message.created_at := t |}.

(** Alice owns [c1] and [c2]; [c3] is Bob's. *)
Definition rows : Store :=
  {| user_profiles := [alice_profile];
     conversations := [ conversation "c1" "u-alice" false 10;
                        conversation "c2" "u-alice" false 12;
                        conversation "c3" "u-bob" false 11 ];
     messages := [ message "m2" "c1" "u-alice" 21;
                   message "m1" "c1" "u-alice" 20;
                   message "m3" "c3" "u-bob" 22 ];
     api_usage := [] |}.

(** No store call fails; the provider accepts the next three tokens as
    Alice's; the client has a [sql] member. *)
Definition world : World :=
  {| store := rows; faults := [];
     provider := [ ProviderData (Some alice) JNull;
                   ProviderData (Some alice) JNull;
                   ProviderData (Some alice) JNull ];
     clock := 30; next_id := 0; sql_tag := true;
     env := {| SUPABASE_URL := JStr "https://project.example";
               SUPABASE_ANON_KEY := JStr "anon" |};
     over_quota := fun _ => false; calls := [] |}.

(** A request as it reaches a router. *)
Definition request (m : Method) (path : list string) (token : option string)
    (body : gmap string JsVal) : Request :=
  {| req_method := m; req_path := path; req_bearer := token;
     req_body := body; req_params := ∅; req_user := None;
     req_profile := None |}.

(** A request as a handler sees it once Alice is authenticated and the
    route parameters are bound. *)
Definition as_alice (m : Method) (path : list string)
    (params : gmap string string) (body : gmap string JsVal) : Request :=
  {| req_method := m; req_path := path; req_bearer := Some "token";
     req_body := body; req_params := params;
     req_user := Some alice; req_profile := Some alice_profile |}.

Definition bob : User.t :=
  {| User.id := "u-bob"; User.email := JStr "bob@example.org";
     User.email_confirmed_at := None; User.user_metadata := None |}.

Definition internal_error (error message : string) : Response :=
  {| status := 500; body := ErrorBody error message |}.

End Sample.

(** ** Vocabulary of the further properties *)

(** Every normal result of a computation satisfies [P]. *)
Definition answers {A} (P : A -> Prop) (m : M A) : Prop :=
  forall w a w', m w = (Normal a, w') -> P a.

(** A response whose status is one of [codes] and whose body, when the
    status is 500, is the fixed [generic] one. *)
Definition answers_only (codes : list Z) (generic : Http.Body)
    (r : Http.Response) : Prop :=
  In (Http.status r) codes /\ (Http.status r = 500 -> Http.body r = generic).

(** A handler that answers every request, within [codes]. *)
Definition responds (codes : list Z) (generic : Http.Body)
    (h : Http.Handler) : Prop :=
  forall req w, exists r w',
    h req w = (Normal r, w') /\ answers_only codes generic r.

(** A computation that leaves every table as it was. *)
Definition keeps_store {A} (m : M A) : Prop :=
  forall w, store (m w).2 = store w.

(** The store with the one row of [conversationId] and [userId] replaced. *)
Definition replace_in (conversationId userId : Id) (c' : Conversation.t)
    (s : Store) : Store :=
  Backend.with_conversations
    (map (fun x => if decide (Backend.owned_conversation conversationId userId x)
                   then c' else x) (conversations s)) s.

(** What a provider method answers, by the scripted reply. *)
Definition provider_answer (reply : ProviderReply)
    : Completion (Backend.Reply Backend.AuthData) :=
  match reply with
  | ProviderRejects e => Throw e
  | ProviderError e =>
      Normal {| Backend.data := Some {| Backend.user := None;
                                      Backend.session := JNull |};
                Backend.error := Some e |}
  | ProviderData u s => Normal (Backend.ok {| Backend.user := u; Backend.session := s |})
  end.

(** The display name [createUserProfile] gives a new profile: the
    metadata's name when truthy, else the email up to its first [@];
    none when the email is not a string. *)
Definition profile_name (u : User.t) : option JsVal :=
  if truthy (Supabase.metadata_full_name u)
  then Some (Supabase.metadata_full_name u)
  else match User.email u with
       | JStr s => Some (JStr (before "@"%char s))
       | _ => None
       end.

(** The row with its archived flag set. *)
Definition flagged (b : bool) (c : Conversation.t) : Conversation.t :=
  {| Conversation.id := Conversation.id c;
     Conversation.user_id := Conversation.user_id c;
     Conversation.title := Conversation.title c;
     Conversation.thread_id := Conversation.thread_id c;
     Conversation.is_archived := b;
     Conversation.created_at := Conversation.created_at c;
     Conversation.updated_at := Conversation.updated_at c |}.

(** ** The two orders of the listings *)

#[local] Instance older_first_trans : Transitive Backend.older_first.
Proof. unfold Backend.older_first. intros a b c. lia. Qed.
#[local] Instance older_first_total : Total Backend.older_first.
Proof. unfold Backend.older_first. intros a b. lia. Qed.
#[local] Instance newer_first_trans : Transitive Backend.newer_first.
Proof. unfold Backend.newer_first. intros a b c. lia. Qed.
#[local] Instance newer_first_total : Total Backend.newer_first.
Proof. unfold Backend.newer_first. intros a b. lia. Qed.

(** ** The embedding at work *)

Section Runs.
Import Http Backend Supabase Sample.

(** Alice lists her conversations: the latest update comes first and Bob's
    conversation is not shown. *)
Example run_list :
  (dispatch ConversationRoutes.router (request GET [] (Some "token") ∅)
     world).1
  = Normal {| status := 200;
              body := ConversationList
                        [ conversation "c2" "u-alice" false 12;
                          conversation "c1" "u-alice" false 10 ] 2 |}.
Proof. vm_compute. reflexivity. Qed.

(** She archives [c1] and lists again. *)
Example run_archive_then_list :
  let after :=
    (dispatch ConversationRoutes.router
       (request DELETE ["c1"] (Some "token") ∅) world).2 in
  conversations (store after)
  = [ conversation "c1" "u-alice" true 10;
      conversation "c2" "u-alice" false 12;
      conversation "c3" "u-bob" false 11 ]
  /\ (dispatch ConversationRoutes.router (request GET [] (Some "token") ∅)
        after).1
     = Normal {| status := 200;
                 body := ConversationList
                           [ conversation "c2" "u-alice" false 12 ] 1 |}.
Proof. split; vm_compute; reflexivity. Qed.

(** She cannot archive Bob's conversation. *)
Example run_archive_foreign :
  let r := dispatch ConversationRoutes.router
             (request DELETE ["c3"] (Some "token") ∅) world in
  status <$> match r.1 with Normal resp => Some resp | Throw _ => None end
  = Some 404
  /\ conversations (store r.2) = conversations (store world).
Proof. split; vm_compute; reflexivity. Qed.

(** The messages of [c1] come back oldest first, whatever their order in
    the table. *)
Example run_messages :
  (getConversationMessages "c1" "u-alice" world).1
  = Normal (Some [ message "m1" "c1" "u-alice" 20;
                   message "m2" "c1" "u-alice" 21 ]).
Proof. vm_compute. reflexivity. Qed.

(** Bob signs up: the provider creates the user and the route creates the
    profile, since none exists. *)
Example run_signup :
  (dispatch AuthRoutes.router
     (request POST ["signup"] None
        {[ "email" := JStr "bob@example.org"; "password" := JStr "secret" ]})
     (with_provider [ProviderData (Some bob) (JStr "session")] world)).1
  = Normal {| status := 201;
              body := AuthBody "User created successfully"
                        {| id := "u-bob"; email := JStr "bob@example.org";
                           emailConfirmed := false |}
                        (Some (fresh_profile bob (JStr "bob") 32))
                        (JStr "session") |}.
Proof. vm_compute. reflexivity. Qed.

(** A profile at its limit has no quota left. *)
Example run_quota :
  (checkApiQuota "u-alice" world).1 = Normal true
  /\ (checkApiQuota "u-alice"
        (with_store
           (with_user_profiles [add_usage 93 alice_profile] rows) world)).1
     = Normal false
  /\ (checkApiQuota "u-bob" world).1 = Normal false.
Proof. repeat split; vm_compute; reflexivity. Qed.

(** [updateApiUsage] with a client that has the [sql] tag, and with one
    that has not: the usage is logged in both cases, the counter moves
    only in the first. *)
Example run_usage :
  let r := updateApiUsage "u-alice" (Some 5) None world in
  let w' := {| store := rows; faults := []; provider := [];
               clock := 30; next_id := 0; sql_tag := false;
               env := env world; over_quota := over_quota world;
               calls := [] |} in
  let r' := updateApiUsage "u-alice" (Some 5) None w' in
  r.1 = Normal true
  /\ UserProfile.api_usage_count <$> user_profiles (store r.2) = [12]
  /\ length (api_usage (store r.2)) = 1%nat
  /\ r'.1 = Normal false
  /\ UserProfile.api_usage_count <$> user_profiles (store r'.2) = [7]
  /\ length (api_usage (store r'.2)) = 1%nat.
Proof. repeat split; vm_compute; reflexivity. Qed.

End Runs.

(** ** The monad and the scripted world *)

Section Monad.
Context {A : Type}.

Lemma try_catch_never_raises (m : M A) (h : JsError -> M A) :
  (forall e, never_raises (h e)) -> never_raises (try_catch m h).
Proof.
  intros Hh w. unfold try_catch.
  destruct (m w) as [[a|e] w1]; [by eauto|]. apply Hh.
Qed.

Lemma logged_ret_never_raises (label : string) (a : A) (e : JsError) :
  never_raises (do console_error label e in ret a).
Proof. intros w. by exists a, w. Qed.

End Monad.

(** What one awaited chain does, by the fault scripted for it. *)
Lemma query_no_fault {D} table verb
    (run : Timestamp -> Id -> Store -> Backend.Reply D * Store) w :
  next_fault w = NoFault ->
  Backend.query table verb run w =
    (Normal (run (clock w) (Backend.fresh_id (next_id w)) (store w)).1,
     with_store (run (clock w) (Backend.fresh_id (next_id w)) (store w)).2
       (step (Some (DbCall table verb)) (Backend.pop_fault w).2)).
Proof.
  unfold next_fault, Backend.query. destruct (Backend.pop_fault w) as [f w1].
  simpl. intros ->. by destruct (run _ _ _).
Qed.

Lemma query_rejects {D} table verb
    (run : Timestamp -> Id -> Store -> Backend.Reply D * Store) w e :
  next_fault w = Rejects e ->
  Backend.query table verb run w =
    (Throw e, step (Some (DbCall table verb)) (Backend.pop_fault w).2).
Proof.
  unfold next_fault, Backend.query. destruct (Backend.pop_fault w) as [f w1].
  simpl. by intros ->.
Qed.

Lemma query_errors {D} table verb
    (run : Timestamp -> Id -> Store -> Backend.Reply D * Store) w e :
  next_fault w = Errors e ->
  Backend.query table verb run w =
    (Normal (Backend.failed e),
     step (Some (DbCall table verb)) (Backend.pop_fault w).2).
Proof.
  unfold next_fault, Backend.query. destruct (Backend.pop_fault w) as [f w1].
  simpl. by intros ->.
Qed.

Lemma pop_fault_store w : store (Backend.pop_fault w).2 = store w.
Proof. unfold Backend.pop_fault. by destruct (faults w). Qed.

(** ** The adapter *)

Section Adapter.
Import Backend Supabase.

Lemma next_fault_nth w : next_fault w = nth_fault 0 w.
Proof. unfold next_fault, nth_fault, pop_fault. by destruct (faults w). Qed.

Lemma faults_after_query {D} table verb
    (run : Timestamp -> Id -> Store -> Reply D * Store) w :
  faults (query table verb run w).2 = tail (faults w).
Proof.
  unfold query, pop_fault.
  destruct (faults w) as [ | f fs] eqn:E; simpl.
  - destruct (run _ _ _). simpl. by rewrite E.
  - destruct f; simpl; try done. by destruct (run _ _ _).
Qed.

Lemma sql_tag_after_query {D} table verb
    (run : Timestamp -> Id -> Store -> Reply D * Store) w :
  sql_tag (query table verb run w).2 = sql_tag w.
Proof.
  unfold query, pop_fault.
  destruct (faults w) as [ | f fs] eqn:E; simpl.
  - by destruct (run _ _ _).
  - destruct f; simpl; try done. by destruct (run _ _ _).
Qed.

Ltac helper_total :=
  intros; apply try_catch_never_raises; intros; apply logged_ret_never_raises.

Ltac one_call_fails w H :=
  unfold try_catch, bind, data_or_throw;
  destruct (next_fault w) as [ | e | e] eqn:E; [done| |];
  [ rewrite (query_rejects _ _ _ _ _ E) | rewrite (query_errors _ _ _ _ _ E) ];
  reflexivity.

Lemma verifyToken_total token : never_raises (verifyToken token).
Proof. helper_total. Qed.
Lemma getUserProfile_total userId : never_raises (getUserProfile userId).
Proof. helper_total. Qed.
Lemma createUserProfile_total user : never_raises (createUserProfile user).
Proof. helper_total. Qed.
Lemma updateApiUsage_total userId t c : never_raises (updateApiUsage userId t c).
Proof. helper_total. Qed.
Lemma checkApiQuota_total userId : never_raises (checkApiQuota userId).
Proof. helper_total. Qed.
Lemma createConversation_total userId title threadId :
  never_raises (createConversation userId title threadId).
Proof. helper_total. Qed.
Lemma getUserConversations_total userId :
  never_raises (getUserConversations userId).
Proof. helper_total. Qed.
Lemma saveMessage_total c u role content metadata :
  never_raises (saveMessage c u role content metadata).
Proof. helper_total. Qed.
Lemma getConversationMessages_total c u :
  never_raises (getConversationMessages c u).
Proof. helper_total. Qed.
Lemma updateConversation_total c u updates :
  never_raises (updateConversation c u updates).
Proof. helper_total. Qed.

Lemma verifyToken_failure token :
  provider_failure_gives (verifyToken token) None.
Proof.
  intros w H. unfold verifyToken, try_catch, bind, auth.
  unfold next_reply in H. destruct (pop_provider w) as [r w1]. simpl in H.
  destruct r as [[e|e|u s]|]; try reflexivity. by destruct (H u s).
Qed.

Lemma getUserProfile_failure userId :
  store_failure_gives (getUserProfile userId) None.
Proof. intros w H. unfold getUserProfile, select_profile. one_call_fails w H. Qed.

Lemma createUserProfile_failure user :
  store_failure_gives (createUserProfile user) None.
Proof.
  intros w H. destruct user as [u|]; [|reflexivity].
  unfold createUserProfile, try_catch, bind.
  destruct (truthy (metadata_full_name u)).
  - unfold ret at 1. unfold insert_profile, data_or_throw.
    destruct (next_fault w) as [ | e | e] eqn:E; [done| |];
      [ rewrite (query_rejects _ _ _ _ _ E) | rewrite (query_errors _ _ _ _ _ E) ];
      reflexivity.
  - unfold lift. destruct (split_at_first (User.email u)); [|reflexivity].
    unfold insert_profile, data_or_throw.
    destruct (next_fault w) as [ | e | e] eqn:E; [done| |];
      [ rewrite (query_rejects _ _ _ _ _ E) | rewrite (query_errors _ _ _ _ _ E) ];
      reflexivity.
Qed.

Lemma checkApiQuota_failure userId :
  store_failure_gives (checkApiQuota userId) false.
Proof.
  intros w H. unfold checkApiQuota, try_catch at 1, bind at 1.
  pose proof (getUserProfile_failure userId w H) as Hp.
  destruct (getUserProfile userId w) as [r w1]. simpl in Hp. by subst r.
Qed.

Lemma createConversation_failure userId title threadId :
  store_failure_gives (createConversation userId title threadId) None.
Proof.
  intros w H. unfold createConversation, insert_conversation.
  one_call_fails w H.
Qed.

Lemma getUserConversations_failure userId :
  store_failure_gives (getUserConversations userId) (Some []).
Proof.
  intros w H. unfold getUserConversations, select_conversations.
  one_call_fails w H.
Qed.

Lemma saveMessage_failure c u role content metadata :
  store_failure_gives (saveMessage c u role content metadata) None.
Proof. intros w H. unfold saveMessage, insert_message. one_call_fails w H. Qed.

Lemma getConversationMessages_failure c u :
  store_failure_gives (getConversationMessages c u) (Some []).
Proof.
  intros w H. unfold getConversationMessages, select_messages.
  one_call_fails w H.
Qed.

Lemma updateConversation_failure c u updates :
  store_failure_gives (updateConversation c u updates) None.
Proof.
  intros w H. unfold updateConversation, update_conversation.
  one_call_fails w H.
Qed.

(** [updateApiUsage] makes two store calls with the [sql] tag between
    them. It answers [false] when the first call rejects, when the client
    has no [sql] member, and when the second call rejects or reports an
    error. *)
Lemma updateApiUsage_failure userId t c w :
  (exists e, nth_fault 0 w = Rejects e) \/ sql_tag w = false
    \/ nth_fault 1 w <> NoFault ->
  (updateApiUsage userId t c w).1 = Normal false.
Proof.
  intros H. unfold updateApiUsage, try_catch, bind at 1.
  unfold insert_api_usage.
  set (run := fun (_ : Timestamp) (_ : Id) (s : Store) => _).
  pose proof (faults_after_query "api_usage" "insert" run w) as Hf.
  pose proof (sql_tag_after_query "api_usage" "insert" run w) as Hs.
  destruct (query "api_usage" "insert" run w) as [[r|e] w1] eqn:E1;
    [|reflexivity].
  simpl in Hf, Hs. unfold bind at 1, sql. rewrite Hs.
  destruct (sql_tag w) eqn:Et; [|reflexivity].
  unfold bind, increment_usage.
  assert (next_fault w1 = nth_fault 1 w) as Hn.
  { rewrite next_fault_nth. unfold nth_fault. rewrite Hf.
    by destruct (faults w) as [ | f [ | g fs]]. }
  destruct H as [[e He]|[H|H]]; [|done|].
  - rewrite <- next_fault_nth in He.
    rewrite (query_rejects _ _ _ _ _ He) in E1. done.
  - rewrite <- Hn in H.
    destruct (next_fault w1) as [ | e | e] eqn:E; [done| |];
      [ rewrite (query_rejects _ _ _ _ _ E)
      | rewrite (query_errors _ _ _ _ _ E) ]; reflexivity.
Qed.

(** The reply of the first call (the [api_usage] insert) is not looked
    at: with a client that has a [sql] member, an error that this call
    reports without rejecting does not change the answer. *)
Remark updateApiUsage_insert_reply_unread userId t c w e :
  nth_fault 0 w = Errors e -> sql_tag w = true -> nth_fault 1 w = NoFault ->
  (updateApiUsage userId t c w).1 = Normal true.
Proof.
  intros H0 Ht H1. unfold updateApiUsage, try_catch, bind at 1.
  unfold insert_api_usage.
  set (run := fun (_ : Timestamp) (_ : Id) (s : Store) => _).
  pose proof (faults_after_query "api_usage" "insert" run w) as Hf.
  pose proof (sql_tag_after_query "api_usage" "insert" run w) as Hs.
  rewrite <- next_fault_nth in H0.
  rewrite (query_errors _ _ _ _ _ H0) in *.
  set (w1 := step _ _) in *. change (faults w1 = tail (faults w)) in Hf.
  change (sql_tag w1 = sql_tag w) in Hs.
  unfold bind at 1, sql. rewrite Hs, Ht.
  unfold bind, increment_usage.
  assert (next_fault w1 = NoFault) as Hn.
  { rewrite next_fault_nth. unfold nth_fault. rewrite Hf, <- H1.
    unfold nth_fault. by destruct (faults w) as [ | f [ | g fs]]. }
  by rewrite (query_no_fault _ _ _ _ Hn).
Qed.

(** C4: each of the ten helpers of the Backend Client Adapter completes
    normally from every world and for every argument, and a lower-level
    failure -- a rejected call, an error reported by the call whose reply
    the helper reads, a missing client member -- comes back as the
    helper's sentinel: [null], [false] or the empty list. *)
Theorem adapter_never_raises :
  (forall token,
      never_raises (verifyToken token)
      /\ provider_failure_gives (verifyToken token) None)
  /\ (forall userId,
      never_raises (getUserProfile userId)
      /\ store_failure_gives (getUserProfile userId) None)
  /\ (forall user,
      never_raises (createUserProfile user)
      /\ store_failure_gives (createUserProfile user) None)
  /\ (forall userId tokensUsed costCents,
      never_raises (updateApiUsage userId tokensUsed costCents)
      /\ forall w,
          (exists e, nth_fault 0 w = Rejects e) \/ sql_tag w = false
            \/ nth_fault 1 w <> NoFault ->
          (updateApiUsage userId tokensUsed costCents w).1 = Normal false)
  /\ (forall userId,
      never_raises (checkApiQuota userId)
      /\ store_failure_gives (checkApiQuota userId) false)
  /\ (forall userId title threadId,
      never_raises (createConversation userId title threadId)
      /\ store_failure_gives (createConversation userId title threadId) None)
  /\ (forall userId,
      never_raises (getUserConversations userId)
      /\ store_failure_gives (getUserConversations userId) (Some []))
  /\ (forall conversationId userId updates,
      never_raises (updateConversation conversationId userId updates)
      /\ store_failure_gives
           (updateConversation conversationId userId updates) None)
  /\ (forall conversationId userId role content metadata,
      never_raises (saveMessage conversationId userId role content metadata)
      /\ store_failure_gives
           (saveMessage conversationId userId role content metadata) None)
  /\ (forall conversationId userId,
      never_raises (getConversationMessages conversationId userId)
      /\ store_failure_gives
           (getConversationMessages conversationId userId) (Some [])).
Proof.
  repeat split.
  - apply verifyToken_total.
  - apply verifyToken_failure.
  - apply getUserProfile_total.
  - apply getUserProfile_failure.
  - apply createUserProfile_total.
  - apply createUserProfile_failure.
  - apply updateApiUsage_total.
  - apply updateApiUsage_failure.
  - apply checkApiQuota_total.
  - apply checkApiQuota_failure.
  - apply createConversation_total.
  - apply createConversation_failure.
  - apply getUserConversations_total.
  - apply getUserConversations_failure.
  - apply updateConversation_total.
  - apply updateConversation_failure.
  - apply saveMessage_total.
  - apply saveMessage_failure.
  - apply getConversationMessages_total.
  - apply getConversationMessages_failure.
Qed.

End Adapter.

Section Quota.
Import Backend Supabase.

Lemma getUserProfile_result userId w :
  (getUserProfile userId w).1 =
    Normal (match next_fault w with
            | NoFault => profile_of userId (store w)
            | _ => None
            end).
Proof.
  destruct (next_fault w) as [ | e | e] eqn:E.
  - unfold getUserProfile, select_profile, try_catch, bind.
    rewrite (query_no_fault _ _ _ _ E). simpl. unfold profile_of.
    by destruct (filter _ _) as [ | p [ | q l]].
  - apply getUserProfile_failure. by rewrite E.
  - apply getUserProfile_failure. by rewrite E.
Qed.

Lemma checkApiQuota_result userId w :
  (checkApiQuota userId w).1 =
    Normal (match (getUserProfile userId w).1 with
            | Normal (Some p) =>
                UserProfile.api_usage_count p <? UserProfile.api_usage_limit p
            | _ => false
            end).
Proof.
  unfold checkApiQuota, try_catch at 1, bind at 1.
  destruct (getUserProfile_total userId w) as (a & w1 & ->). simpl.
  by destruct a.
Qed.

Lemma checkApiQuota_true userId w :
  (checkApiQuota userId w).1 = Normal true <->
  exists p, (getUserProfile userId w).1 = Normal (Some p)
            /\ UserProfile.api_usage_count p < UserProfile.api_usage_limit p.
Proof.
  rewrite checkApiQuota_result. split.
  - intros H. destruct (getUserProfile userId w).1 as [[p|]|]; try done.
    exists p. split; [done|]. apply Z.ltb_lt. congruence.
  - intros (p & -> & Hlt). f_equal. by apply Z.ltb_lt.
Qed.

Lemma getUserProfile_some userId w p :
  (getUserProfile userId w).1 = Normal (Some p) <->
  next_fault w = NoFault /\ profile_of userId (store w) = Some p.
Proof.
  rewrite getUserProfile_result.
  destruct (next_fault w); split; try congruence; try (by intros [? ?]).
  - intros H. split; [done|congruence].
  - intros [_ ->]. done.
Qed.

(** C8: for every user id, [checkApiQuota] answers [true] exactly when
    the user's profile exists (the lookup of [getUserProfile] finds it)
    and its API usage count is strictly below its API usage limit; when
    the profile is absent or the lookup fails -- [getUserProfile] answers
    [null] -- it answers [false]. The profile is found exactly when the
    store call does not fail and the table holds one row for the id. *)
Theorem checkApiQuota_iff userId w :
  ((checkApiQuota userId w).1 = Normal true <->
     exists p, (getUserProfile userId w).1 = Normal (Some p)
               /\ UserProfile.api_usage_count p < UserProfile.api_usage_limit p)
  /\ ((getUserProfile userId w).1 = Normal None ->
      (checkApiQuota userId w).1 = Normal false)
  /\ (forall p, (getUserProfile userId w).1 = Normal (Some p) <->
                next_fault w = NoFault
                /\ profile_of userId (store w) = Some p).
Proof.
  split; [apply checkApiQuota_true|]. split.
  - intros H. rewrite checkApiQuota_result. by rewrite H.
  - intros p. apply getUserProfile_some.
Qed.
End Quota.

Section Ordering.
Import Backend Supabase.

Lemma getConversationMessages_result conversationId userId w :
  (getConversationMessages conversationId userId w).1 =
    Normal (Some (match next_fault w with
                  | NoFault => merge_sort older_first
                                 (messages_of conversationId userId (store w))
                  | _ => []
                  end)).
Proof.
  destruct (next_fault w) as [ | e | e] eqn:E.
  - unfold getConversationMessages, select_messages, try_catch, bind.
    by rewrite (query_no_fault _ _ _ _ E).
  - apply getConversationMessages_failure. by rewrite E.
  - apply getConversationMessages_failure. by rewrite E.
Qed.

(** C9: for every conversation id, user id and world, the sequence that
    [getConversationMessages] returns is in non-decreasing order of
    creation time; it holds only messages of that conversation and user,
    and all of them when the store call does not fail. *)
Theorem getConversationMessages_sorted conversationId userId w :
  exists l,
    (getConversationMessages conversationId userId w).1 = Normal (Some l)
    /\ StronglySorted (fun a b => Message.created_at a <= Message.created_at b) l
    /\ (forall m, m ∈ l ->
          m ∈ messages (store w)
          /\ Message.conversation_id m = conversationId
          /\ Message.user_id m = userId)
    /\ (next_fault w = NoFault ->
          l ≡ₚ messages_of conversationId userId (store w)).
Proof.
  eexists. split; [apply getConversationMessages_result|].
  destruct (next_fault w).
  - split; [|split].
    + apply (StronglySorted_merge_sort older_first).
    + intros m. rewrite merge_sort_Permutation. unfold messages_of.
      rewrite !list_elem_of_filter. tauto.
    + intros _. apply merge_sort_Permutation.
  - split; [constructor|]. split; [|done]. intros m Hm. by inversion Hm.
  - split; [constructor|]. split; [|done]. intros m Hm. by inversion Hm.
Qed.
End Ordering.

Section Creation.
Import Backend Supabase.

Lemma createUserProfile_some user w p :
  (createUserProfile user w).1 = Normal (Some p) ->
  exists u full_name,
    user = Some u
    /\ next_fault w = NoFault
    /\ filter (fun q => UserProfile.id q = User.id u)
         (user_profiles (store w)) = []
    /\ p = fresh_profile u full_name (clock w)
    /\ store (createUserProfile user w).2 =
         with_user_profiles (user_profiles (store w) ++ [p]) (store w).
Proof.
  destruct user as [u|]; [|simpl; intros ?; discriminate].
  remember (createUserProfile (Some u) w) as res eqn:R. revert R.
  unfold createUserProfile, try_catch, bind at 1.
  set (first := if truthy (metadata_full_name u) then _ else _).
  assert (exists c, first w = (c, w)) as [c ->].
  { unfold first. destruct (truthy _); [by eexists|].
    unfold lift. by eexists. }
  destruct c as [full_name|e]; [|intros ->; simpl; intros ?; discriminate].
  unfold bind, insert_profile.
  destruct (next_fault w) as [ | e | e] eqn:E.
  - rewrite (query_no_fault _ _ _ _ E).
    destruct (filter _ (user_profiles (store w))) as [ | q l] eqn:F;
      simpl; intros ->; simpl; [|intros ?; discriminate].
    intros [= <-]. by exists u, full_name.
  - rewrite (query_rejects _ _ _ _ _ E). intros ->. simpl. intros ?; discriminate.
  - rewrite (query_errors _ _ _ _ _ E). intros ->. simpl. intros ?; discriminate.
Qed.

Lemma profile_of_appended p s :
  filter (fun q => UserProfile.id q = UserProfile.id p) (user_profiles s) = [] ->
  profile_of (UserProfile.id p)
    (with_user_profiles (user_profiles s ++ [p]) s) = Some p.
Proof.
  intros F. unfold profile_of. simpl. rewrite filter_app, F. simpl.
  rewrite filter_cons_True by done. done.
Qed.

(** C10: a profile created by [createUserProfile] has subscription tier
    "free", API usage count 0 and API usage limit 100 and is in the
    store; consequently [checkApiQuota] answers [true] for a user whose
    profile it is, and does so right after the creation when the lookup
    does not fail. *)
Theorem created_profile_has_quota user w p :
  (createUserProfile user w).1 = Normal (Some p) ->
  UserProfile.subscription_tier p = "free"
  /\ UserProfile.api_usage_count p = 0
  /\ UserProfile.api_usage_limit p = 100
  /\ p ∈ user_profiles (store (createUserProfile user w).2)
  /\ (forall userId w',
        (getUserProfile userId w').1 = Normal (Some p) ->
        (checkApiQuota userId w').1 = Normal true)
  /\ (next_fault (createUserProfile user w).2 = NoFault ->
      (checkApiQuota (UserProfile.id p) (createUserProfile user w).2).1
        = Normal true).
Proof.
  intros H. destruct (createUserProfile_some _ _ _ H)
    as (u & full_name & -> & Hf & F & -> & Hs).
  repeat split; try done.
  - rewrite Hs. simpl. apply elem_of_app. right. by left.
  - intros userId w' Hp. apply checkApiQuota_true.
    exists (fresh_profile u full_name (clock w)). split; [exact Hp|simpl; lia].
  - intros Hn. apply checkApiQuota_true.
    exists (fresh_profile u full_name (clock w)). split; [|simpl; lia].
    apply getUserProfile_some. split; [exact Hn|]. rewrite Hs.
    by apply (profile_of_appended (fresh_profile u full_name (clock w))).
Qed.
End Creation.

Section Auth.
Import Http Backend Supabase AuthRoutes.

Lemma field_with_params ps req name :
  field (with_params ps req) name = field req name.
Proof. reflexivity. Qed.

(** C5: a [POST /signup] whose body lacks [email] or lacks [password] is
    answered 400, and the world is left as it was: no call reached the
    auth provider or the store. *)
Theorem signup_missing_field req w :
  req_method req = POST ->
  req_path req = ["signup"] ->
  req_body req !! "email" = None \/ req_body req !! "password" = None ->
  dispatch router req w =
    (Normal {| status := 400;
               body := ErrorBody "Missing required fields"
                         "Email and password are required" |}, w)
  /\ calls (dispatch router req w).2 = calls w
  /\ store (dispatch router req w).2 = store w.
Proof.
  intros Hm Hp Hb.
  assert (dispatch router req w =
    (Normal {| status := 400;
               body := ErrorBody "Missing required fields"
                         "Email and password are required" |}, w)) as ->.
  { unfold router, dispatch. simpl route_method. rewrite Hm, Hp.
    simpl. unfold post_signup, try_catch.
    rewrite !field_with_params. unfold field at 1 2.
    destruct Hb as [-> | ->]; simpl; [done|].
    by rewrite orb_true_r. }
  done.
Qed.
End Auth.

Section Profile.
Import Http Backend Supabase AuthRoutes.

Lemma filter_singleton {A} (P : A -> Prop) `{!forall x, Decision (P x)}
    (l : list A) (a x : A) :
  filter P l = [a] -> x ∈ l -> P x -> x = a.
Proof.
  intros F Hx HP.
  assert (x ∈ filter P l) as Hin by (by apply list_elem_of_filter).
  rewrite F in Hin. by apply list_elem_of_singleton in Hin.
Qed.

Lemma profile_updates_lookup fullName avatarUrl t :
  profile_updates fullName avatarUrl t !! "updated_at" = Some (JNum t)
  /\ profile_updates fullName avatarUrl t !! "full_name" =
       (if defined fullName then Some fullName else None)
  /\ profile_updates fullName avatarUrl t !! "avatar_url" =
       (if defined avatarUrl then Some avatarUrl else None).
Proof.
  unfold profile_updates.
  destruct (defined fullName), (defined avatarUrl); by simplify_map_eq.
Qed.

Lemma profile_updates_columns fullName avatarUrl t :
  only_columns ["full_name"; "avatar_url"; "updated_at"]
    (profile_updates fullName avatarUrl t) = true.
Proof.
  unfold only_columns. apply forallb_forall. intros [k v] Hin.
  apply bool_decide_eq_true_2. simpl.
  apply list_elem_of_In, elem_of_map_to_list in Hin.
  unfold profile_updates in Hin.
  destruct (defined fullName), (defined avatarUrl);
    repeat (apply lookup_insert_Some in Hin as [[<- _]|[_ Hin]];
            [set_solver|]); by rewrite lookup_empty in Hin.
Qed.

Lemma ident_supabase : ident scope "supabase" = ret tt.
Proof. reflexivity. Qed.

Lemma fmap_map_frame {A B} (g : A -> B) (f : A -> A) (l : list A) :
  (forall x, x ∈ l -> g (f x) = g x) -> g <$> map f l = g <$> l.
Proof.
  induction l as [ | a l IH]; intros H; [done|]. simpl.
  rewrite H by left. f_equal. apply IH. intros x Hx. apply H. by right.
Qed.

(** What [update(updates).eq('id', userId).select().single()] does to the
    table: nothing, or the one matching row is replaced. *)
Lemma update_profile_effect updates userId w :
  (store (update_profile updates userId w).2 = store w
   /\ forall p, (update_profile updates userId w).1 <> Normal (ok p))
  \/ exists p p',
       next_fault w = NoFault
       /\ filter (fun q => UserProfile.id q = userId)
            (user_profiles (store w)) = [p]
       /\ update_profile_row updates p = Some p'
       /\ (update_profile updates userId w).1 = Normal (ok p')
       /\ store (update_profile updates userId w).2 =
            with_user_profiles
              (map (fun x => if decide (UserProfile.id x = userId)
                             then p' else x) (user_profiles (store w)))
              (store w).
Proof.
  unfold update_profile.
  destruct (next_fault w) as [ | e | e] eqn:E.
  - rewrite (query_no_fault _ _ _ _ E).
    destruct (only_columns _ updates); [|left; simpl; split; [by destruct (store w)|done]].
    destruct (filter _ (user_profiles (store w))) as [ | p [ | q l]] eqn:F;
      try (left; simpl; split; [by destruct (store w)|done]).
    destruct (update_profile_row updates p) as [p'|] eqn:U;
      [|left; simpl; split; [by destruct (store w)|done]].
    right. by exists p, p'.
  - left. rewrite (query_rejects _ _ _ _ _ E). simpl.
    split; [apply pop_fault_store|done].
  - left. rewrite (query_errors _ _ _ _ _ E). simpl.
    split; [apply pop_fault_store|done].
Qed.

Lemma put_profile_eq req w u :
  req_user req = Some u ->
  put_profile req w =
    match update_profile
            (profile_updates (field req "fullName") (field req "avatarUrl")
               (clock w)) (User.id u) (step None w) with
    | (Normal r, w2) =>
        match error r with
        | Some e =>
            (Normal {| status := 400;
                       body := ErrorBody "Profile update failed"
                                 (Js.message e) |}, w2)
        | None =>
            (Normal {| status := 200;
                       body := ProfileUpdated "Profile updated successfully"
                                 (data r) |}, w2)
        end
    | (Throw e, w2) =>
        (Normal {| status := 500;
                   body := ErrorBody "Internal server error"
                             "An error occurred while updating profile" |},
         w2)
    end.
Proof.
  intros Hu. unfold put_profile, try_catch, bind, user_id.
  rewrite Hu, ident_supabase. cbv beta iota delta [ret now].
  destruct (update_profile _ _ _) as [[r|e] w2]; [|reflexivity].
  by destruct (error r).
Qed.

Lemma update_profile_row_fields u p p' :
  update_profile_row u p = Some p' ->
  UserProfile.id p' = UserProfile.id p
  /\ UserProfile.full_name p' =
       default (UserProfile.full_name p) (u !! "full_name")
  /\ UserProfile.avatar_url p' =
       default (UserProfile.avatar_url p) (u !! "avatar_url")
  /\ (forall t, u !! "updated_at" = Some (JNum t) ->
        UserProfile.updated_at p' = t).
Proof.
  unfold update_profile_row.
  destruct (u !! "updated_at") as [v|] eqn:E.
  - destruct (as_timestamp v) as [t|] eqn:T; [|done].
    intros [= <-]. repeat split. intros t' [= ->]. simpl in *. congruence.
  - intros [= <-]. repeat split. done.
Qed.

(** Replacing every row that satisfies a filter by one row that satisfies
    it: the filter then finds that row once per match. *)
Lemma filter_replace {A} (P : A -> Prop) `{!forall x, Decision (P x)}
    (a : A) (l : list A) :
  P a ->
  filter P (map (fun x => if decide (P x) then a else x) l)
  = map (fun _ => a) (filter P l).
Proof.
  intros Ha. induction l as [ | x l IH]; [done|]. simpl.
  destruct (decide (P x)) as [Hx|Hx].
  - rewrite !filter_cons_True by done. simpl. by rewrite IH.
  - rewrite !filter_cons_False by done. done.
Qed.

Lemma next_fault_step c w : next_fault (step c w) = next_fault w.
Proof. unfold next_fault, pop_fault. simpl. by destruct (faults w). Qed.

Lemma put_profile_store req w u :
  req_user req = Some u ->
  store (put_profile req w).2 =
    store (update_profile
             (profile_updates (field req "fullName") (field req "avatarUrl")
                (clock w)) (User.id u) (step None w)).2.
Proof.
  intros Hu. rewrite (put_profile_eq _ _ _ Hu).
  destruct (update_profile _ _ _) as [[r|e] w2]; [|done].
  by destruct (error r).
Qed.

Lemma put_profile_frame {B} (col : UserProfile.t -> B) (name : string)
    req w u :
  (forall updates p p',
      updates !! name = None -> update_profile_row updates p = Some p' ->
      col p' = col p) ->
  req_user req = Some u ->
  profile_updates (field req "fullName") (field req "avatarUrl") (clock w)
    !! name = None ->
  col <$> user_profiles (store (put_profile req w).2)
  = col <$> user_profiles (store w).
Proof.
  intros Hcol Hu Hn. rewrite (put_profile_store _ _ _ Hu).
  destruct (update_profile_effect
              (profile_updates (field req "fullName") (field req "avatarUrl")
                 (clock w)) (User.id u) (step None w))
    as [[-> _]|(p & p' & _ & F & U & _ & ->)]; [done|].
  simpl. apply fmap_map_frame. intros x Hx.
  destruct (decide (UserProfile.id x = User.id u)) as [Hid|]; [|done].
  rewrite (filter_singleton _ _ _ _ F Hx Hid). by eapply Hcol.
Qed.

(** C7: the update record of [PUT /profile] always carries the
    server-set [updated_at] and leaves out a field the body does not
    define; for an authenticated request a column whose field is absent
    from the body keeps its value in every row; in particular a request
    that supplies only [avatarUrl] is answered 200 with a profile whose
    full name is the old one, whose avatar is the new one and whose
    update time is the server's. *)
Theorem put_profile_partial_update :
  (forall fullName avatarUrl t,
      profile_updates fullName avatarUrl t !! "updated_at" = Some (JNum t)
      /\ (fullName = JUndefined ->
          profile_updates fullName avatarUrl t !! "full_name" = None)
      /\ (avatarUrl = JUndefined ->
          profile_updates fullName avatarUrl t !! "avatar_url" = None))
  /\ (forall req w u,
        req_user req = Some u ->
        (req_body req !! "fullName" = None ->
         UserProfile.full_name <$> user_profiles (store (put_profile req w).2)
         = UserProfile.full_name <$> user_profiles (store w))
        /\ (req_body req !! "avatarUrl" = None ->
            UserProfile.avatar_url <$>
              user_profiles (store (put_profile req w).2)
            = UserProfile.avatar_url <$> user_profiles (store w)))
  /\ (forall req w u p avatarUrl,
        req_user req = Some u ->
        req_body req !! "fullName" = None ->
        req_body req !! "avatarUrl" = Some avatarUrl ->
        defined avatarUrl = true ->
        next_fault w = NoFault ->
        profile_of (User.id u) (store w) = Some p ->
        exists p',
          (put_profile req w).1 =
            Normal {| status := 200;
                      body := ProfileUpdated "Profile updated successfully"
                                (Some p') |}
          /\ UserProfile.full_name p' = UserProfile.full_name p
          /\ UserProfile.avatar_url p' = avatarUrl
          /\ UserProfile.updated_at p' = clock w
          /\ profile_of (User.id u) (store (put_profile req w).2) = Some p').
Proof.
  split; [|split].
  - intros fullName avatarUrl t.
    destruct (profile_updates_lookup fullName avatarUrl t) as (Ht & Hf & Ha).
    split; [done|]. split; intros ->; [by rewrite Hf|by rewrite Ha].
  - intros req w u Hu. split; intros Hb.
    + apply (put_profile_frame UserProfile.full_name "full_name" req w u);
        [|done|].
      * intros updates p p' Hn Hr.
        apply update_profile_row_fields in Hr as (_ & -> & _). by rewrite Hn.
      * destruct (profile_updates_lookup (field req "fullName")
                    (field req "avatarUrl") (clock w)) as (_ & -> & _).
        unfold field. by rewrite Hb.
    + apply (put_profile_frame UserProfile.avatar_url "avatar_url" req w u);
        [|done|].
      * intros updates p p' Hn Hr.
        apply update_profile_row_fields in Hr as (_ & _ & -> & _).
        by rewrite Hn.
      * destruct (profile_updates_lookup (field req "fullName")
                    (field req "avatarUrl") (clock w)) as (_ & _ & ->).
        unfold field. by rewrite Hb.
  - intros req w u p avatarUrl Hu Hf Ha Hd Hn Hp.
    assert (field req "fullName" = JUndefined) as Ef
      by (unfold field; by rewrite Hf).
    assert (field req "avatarUrl" = avatarUrl) as Ea
      by (unfold field; by rewrite Ha).
    assert (filter (fun q => UserProfile.id q = User.id u)
              (user_profiles (store w)) = [p]) as F.
    { unfold profile_of in Hp.
      destruct (filter _ _) as [ | q [ | q' l]]; congruence. }
    destruct (profile_updates_lookup JUndefined avatarUrl (clock w))
      as (Lt & Lf & La). rewrite Hd in La. simpl in Lf.
    destruct (update_profile_row (profile_updates JUndefined avatarUrl (clock w)) p)
      as [p'|] eqn:U.
    2:{ unfold update_profile_row in U. rewrite Lt in U. done. }
    destruct (update_profile_row_fields _ _ _ U) as (Hid & Hfn & Hav & Hup).
    exists p'. rewrite (put_profile_eq _ _ _ Hu), Ef, Ea.
    unfold update_profile.
    rewrite (query_no_fault _ _ _ _ (eq_trans (next_fault_step _ _) Hn)).
    simpl. rewrite profile_updates_columns, F, U. simpl.
    split; [done|]. rewrite Hfn, Hav, Lf, La. simpl.
    split; [done|]. split; [done|]. split; [by apply Hup|].
    unfold profile_of. simpl.
    assert (UserProfile.id p = User.id u) as Hpu.
    { assert (p ∈ filter (fun q => UserProfile.id q = User.id u)
                    (user_profiles (store w))) as Hin by (rewrite F; left).
      by apply list_elem_of_filter in Hin as [? _]. }
    rewrite (filter_replace (fun q => UserProfile.id q = User.id u) p')
      by congruence.
    by rewrite F.
Qed.

End Profile.

Section Archive.
Import Http Backend Supabase ConversationRoutes.

Lemma archive_row c :
  update_conversation_row {[ "is_archived" := JBool true ]} c
  = Some (archived c).
Proof. reflexivity. Qed.

Lemma archive_columns :
  only_columns ["title"; "is_archived"] {[ "is_archived" := JBool true ]}
  = true.
Proof. reflexivity. Qed.

Lemma with_store_same c w :
  with_store (store w) (step c (pop_fault w).2) = step c (pop_fault w).2.
Proof.
  unfold pop_fault, with_store, step. destruct w as [s fs]; simpl.
  by destruct fs.
Qed.

(** [DELETE /:conversationId] for an authenticated caller, case by case. *)
Lemma delete_conversation_eq req w u :
  req_user req = Some u ->
  let conversationId := param req "conversationId" in
  delete_conversation req w =
    match next_fault w,
          filter (owned_conversation conversationId (User.id u))
            (conversations (store w)) with
    | NoFault, [c] =>
        (Normal {| status := 200;
                   body := SuccessBody "Conversation archived successfully" |},
         with_store (archive_in conversationId (User.id u) c (store w))
           (step (Some (DbCall "conversations" "update"))
              (pop_fault w).2))
    | _, _ =>
        (Normal {| status := 404;
                   body := ErrorBody "Conversation not found"
    "The requested conversation does not exist or you do not have access to it" |},
         with_store (store w)
           (step (Some (DbCall "conversations" "update"))
              (pop_fault w).2))
    end.
Proof.
  intros Hu conversationId.
  unfold delete_conversation, try_catch, bind at 1, user_id. rewrite Hu.
  unfold ret at 1, bind at 1.
  change (ident scope "updateConversation" w) with (Normal tt, w).
  unfold bind at 1, updateConversation, try_catch, bind at 1.
  unfold update_conversation. fold conversationId.
  destruct (next_fault w) as [ | e | e] eqn:E.
  - rewrite (query_no_fault _ _ _ _ E). rewrite archive_columns.
    destruct (filter _ (conversations (store w))) as [ | c [ | c' l]] eqn:F.
    + reflexivity.
    + rewrite archive_row. reflexivity.
    + reflexivity.
  - rewrite (query_rejects _ _ _ _ _ E). simpl.
    by rewrite with_store_same.
  - rewrite (query_errors _ _ _ _ _ E). simpl.
    by rewrite with_store_same.
Qed.

Lemma getUserConversations_result userId w :
  (getUserConversations userId w).1 =
    Normal (Some (match next_fault w with
                  | NoFault => merge_sort newer_first (listed userId (store w))
                  | _ => []
                  end)).
Proof.
  destruct (next_fault w) as [ | e | e] eqn:E.
  - unfold getUserConversations, select_conversations, try_catch, bind.
    by rewrite (query_no_fault _ _ _ _ E).
  - apply getUserConversations_failure. by rewrite E.
  - apply getUserConversations_failure. by rewrite E.
Qed.

(** [GET /] for an authenticated caller: always 200 with the listing. *)
Lemma get_conversations_eq req w u :
  req_user req = Some u ->
  (get_conversations req w).1 =
    let l := match next_fault w with
             | NoFault => merge_sort newer_first (listed (User.id u) (store w))
             | _ => []
             end in
    Normal {| status := 200; body := ConversationList l (length l) |}.
Proof.
  intros Hu. pose proof (getUserConversations_result (User.id u) w) as Hr.
  unfold get_conversations, try_catch, bind at 1.
  change (ident scope "getUserConversations" w) with (Normal tt, w).
  unfold bind at 1, user_id. rewrite Hu. unfold ret at 1, bind at 1.
  destruct (getUserConversations (User.id u) w) as [c w1].
  simpl in Hr. by subst c.
Qed.

Lemma listing_members userId w x :
  x ∈ match next_fault w with
      | NoFault => merge_sort newer_first (listed userId (store w))
      | _ => []
      end ->
  x ∈ conversations (store w)
  /\ Conversation.user_id x = userId
  /\ Conversation.is_archived x = false.
Proof.
  destruct (next_fault w); [|by inversion 1|by inversion 1].
  rewrite merge_sort_Permutation. unfold listed.
  rewrite !list_elem_of_filter. tauto.
Qed.

Lemma listing_sorted userId w :
  StronglySorted
    (fun a b => Conversation.updated_at b <= Conversation.updated_at a)
    match next_fault w with
    | NoFault => merge_sort newer_first (listed userId (store w))
    | _ => []
    end.
Proof.
  destruct (next_fault w); [|constructor|constructor].
  apply (StronglySorted_merge_sort newer_first).
Qed.

Lemma archive_in_owned conversationId userId c s x :
  owned_conversation conversationId userId c ->
  x ∈ conversations (archive_in conversationId userId c s) ->
  owned_conversation conversationId userId x ->
  Conversation.is_archived x = true.
Proof.
  intros Hc Hx Ho. simpl in Hx. apply list_elem_of_In, in_map_iff in Hx.
  destruct Hx as (y & <- & _).
  by destruct (decide (owned_conversation conversationId userId y)).
Qed.

(** C6: for an authenticated caller, [DELETE /:conversationId] answers
    404 when the caller owns no row with that id; when it answers 200 the
    one row with that id and owner has been replaced by its archived
    copy, and a following [GET /] by that caller answers 200 with a list
    that does not hold the conversation: the list has only the caller's
    non-archived conversations, latest update first. *)
Theorem archived_conversation_not_listed req req' w u :
  req_user req = Some u ->
  req_user req' = Some u ->
  let conversationId := param req "conversationId" in
  let userId := User.id u in
  let after := (delete_conversation req w).2 in
  (filter (owned_conversation conversationId userId)
     (conversations (store w)) = [] ->
   exists b, (delete_conversation req w).1
             = Normal {| status := 404; body := b |}
             /\ store after = store w)
  /\ (forall b,
        (delete_conversation req w).1 = Normal {| status := 200; body := b |} ->
        (exists c,
            filter (owned_conversation conversationId userId)
              (conversations (store w)) = [c]
            /\ store after = archive_in conversationId userId c (store w))
        /\ (forall x, x ∈ conversations (store after) ->
              owned_conversation conversationId userId x ->
              Conversation.is_archived x = true)
        /\ exists l,
            (get_conversations req' after).1
            = Normal {| status := 200;
                        body := ConversationList l (length l) |}
            /\ (forall x, x ∈ l -> Conversation.id x <> conversationId)
            /\ (forall x, x ∈ l ->
                  x ∈ conversations (store after)
                  /\ Conversation.user_id x = userId
                  /\ Conversation.is_archived x = false)
            /\ StronglySorted
                 (fun a b => Conversation.updated_at b
                             <= Conversation.updated_at a) l).
Proof.
  intros Hu Hu' conversationId userId after. subst after.
  rewrite (delete_conversation_eq _ _ _ Hu). fold conversationId userId.
  split.
  - intros ->. eexists. destruct (next_fault w); simpl; split; try done;
      by rewrite ?pop_fault_store.
  - intros b.
    destruct (next_fault w) as [ | e | e] eqn:E; [|done|done].
    destruct (filter _ (conversations (store w))) as [ | c [ | c' l]] eqn:F;
      [done| |done].
    intros _. simpl.
    assert (owned_conversation conversationId userId c) as Hc.
    { assert (c ∈ filter (owned_conversation conversationId userId)
                    (conversations (store w))) as Hin by (rewrite F; left).
      by apply list_elem_of_filter in Hin as [? _]. }
    assert (forall x,
               x ∈ conversations (archive_in conversationId userId c (store w)) ->
               owned_conversation conversationId userId x ->
               Conversation.is_archived x = true) as Harch
      by (intros x; by apply archive_in_owned).
    split; [by exists c|]. split; [done|].
    eexists. split; [by apply get_conversations_eq|]. fold userId.
    split; [|split].
    + intros x Hx Hid. apply listing_members in Hx as (Hin & Hus & Hna).
      simpl in Hin. rewrite (Harch x) in Hna; [done|done|by split].
    + intros x Hx. by apply listing_members in Hx.
    + apply listing_sorted.
Qed.
End Archive.

Section MissingImport.
Import Http Backend Supabase Middleware ConversationRoutes.

(** [routes/conversations.js] uses [supabase] without importing it. *)
Lemma supabase_not_in_scope :
  ident scope "supabase" = throw (ReferenceError "supabase").
Proof. reflexivity. Qed.

(** Every authenticated [GET /:conversationId] ends in the handler's
    catch-all, before any query is sent. *)
Lemma get_conversation_fails req w u :
  req_user req = Some u ->
  get_conversation req w =
    (Normal {| status := 500;
               body := ErrorBody "Failed to fetch conversation"
                         "An error occurred while fetching the conversation" |},
     w).
Proof.
  intros Hu. unfold get_conversation, try_catch, bind, user_id.
  by rewrite Hu, supabase_not_in_scope.
Qed.

(** So does every authenticated [POST /:conversationId/messages] that
    carries a role and a content. *)
Lemma post_message_fails req w u :
  req_user req = Some u ->
  truthy (field req "role") = true ->
  truthy (field req "content") = true ->
  post_message req w =
    (Normal {| status := 500;
               body := ErrorBody "Failed to save message"
                         "An error occurred while saving the message" |},
     w).
Proof.
  intros Hu Hr Hc. unfold post_message, try_catch, bind at 1, user_id.
  by rewrite Hu, Hr, Hc, supabase_not_in_scope.
Qed.

(** The auth middleware answers 401 itself or hands on a request with a
    user attached. *)
Lemma authenticateUser_cases req w :
  exists w',
    (exists m, authenticateUser req w
               = (Normal (inl {| status := 401;
                                 body := ErrorBody "Unauthorized" m |}), w'))
    \/ (exists u p, authenticateUser req w
                    = (Normal (inr (attach u p req)), w')).
Proof.
  unfold authenticateUser, bind. destruct (req_bearer req) as [token|].
  - destruct (verifyToken_total token w) as ([u|] & w1 & E1); rewrite E1.
    + destruct (getUserProfile_total (User.id u) w1) as (p & w2 & E2).
      rewrite E2. exists w2. right. by exists u, p.
    + exists w1. left. by exists "Invalid or expired token".
  - exists w. left. by exists "Missing token".
Qed.

(** [GET /health] on the conversation router is taken by the route
    [/:conversationId], registered before it, with [health] for the id. *)
Lemma conversations_health_route req w :
  req_method req = GET ->
  req_path req = ["health"] ->
  dispatch router req w =
    run_chain [authenticateUser] get_conversation
      (with_params {[ "conversationId" := "health" ]} req) w.
Proof.
  intros Hm Hp. unfold router, dispatch. simpl route_method.
  by rewrite Hm, Hp.
Qed.

(** So the request meets the auth middleware and then the failing handler,
    never the health handler. *)
Lemma conversations_health_shadowed req w :
  req_method req = GET ->
  req_path req = ["health"] ->
  exists resp w',
    dispatch router req w = (Normal resp, w')
    /\ (status resp = 401 \/ status resp = 500)
    /\ status_field (body resp) = None.
Proof.
  intros Hm Hp. rewrite (conversations_health_route _ _ Hm Hp).
  simpl. unfold bind at 1.
  set (req' := with_params _ req).
  destruct (authenticateUser_cases req' w)
    as (w' & [(m & ->)|(u & p & ->)]).
  - eexists _, w'. split; [reflexivity|]. split; [by left|done].
  - rewrite (get_conversation_fails _ _ u) by done.
    eexists _, w'. split; [reflexivity|]. split; [by right|done].
Qed.

(** [GET /health] on the auth router reaches its handler whatever the
    request carries. *)
Lemma auth_health_ok req w :
  req_method req = GET ->
  req_path req = ["health"] ->
  exists configured,
    dispatch AuthRoutes.router req w =
      (Normal {| status := 200;
                 body := HealthBody "OK" "Authentication API"
                           (Some configured) (clock w) |},
       step None w).
Proof.
  intros Hm Hp. unfold AuthRoutes.router, dispatch. simpl route_method.
  rewrite Hm, Hp. simpl. by eexists.
Qed.

End MissingImport.

(** ** The claims at concrete requests *)

Section Requests.
Import Http Backend Supabase Middleware Sample.

(** C1: an authenticated [GET /conversations/:id] should answer 404 when
    the caller owns no conversation with that id and 200 with the
    conversation, its ordered messages and their count otherwise. The
    handler answers 500 in both cases: Alice owns [c1], the lookup would
    find it, and the request for it fails as the request for Bob's [c3]
    does, at the handler and through the router. *)
Theorem get_conversation_answers_500 :
  single (filter (owned_conversation "c1" "u-alice")
            (conversations (store world)))
  = ok (conversation "c1" "u-alice" false 10)
  /\ ConversationRoutes.get_conversation
       (as_alice GET ["c1"] {[ "conversationId" := "c1" ]} ∅) world
     = (Normal (internal_error "Failed to fetch conversation"
                  "An error occurred while fetching the conversation"),
        world)
  /\ ConversationRoutes.get_conversation
       (as_alice GET ["c3"] {[ "conversationId" := "c3" ]} ∅) world
     = (Normal (internal_error "Failed to fetch conversation"
                  "An error occurred while fetching the conversation"),
        world)
  /\ (dispatch ConversationRoutes.router
        (request GET ["c1"] (Some "token") ∅) world).1
     = Normal (internal_error "Failed to fetch conversation"
                 "An error occurred while fetching the conversation").
Proof.
  split; [reflexivity|].
  split; [by apply (get_conversation_fails _ _ alice)|].
  split; [by apply (get_conversation_fails _ _ alice)|].
  vm_compute. reflexivity.
Qed.

(** C2: [GET /health] should answer 200 with status "OK" on both
    services, with or without a valid bearer token. The auth router does;
    on the conversation router the request without a token is answered
    401 by the auth middleware of [/:conversationId], and the request
    with a valid token 500 by that route's handler. *)
Theorem conversations_health_unreachable :
  (dispatch AuthRoutes.router (request GET ["health"] None ∅) world).1
  = Normal {| status := 200;
              body := HealthBody "OK" "Authentication API" (Some true) 30 |}
  /\ dispatch ConversationRoutes.router (request GET ["health"] None ∅) world
     = (Normal {| status := 401;
                  body := ErrorBody "Unauthorized" "Missing token" |}, world)
  /\ (dispatch ConversationRoutes.router
        (request GET ["health"] (Some "token") ∅) world).1
     = Normal (internal_error "Failed to fetch conversation"
                 "An error occurred while fetching the conversation").
Proof.
  split; [vm_compute; reflexivity|]. split; [reflexivity|].
  vm_compute. reflexivity.
Qed.

(** C3: an authenticated [POST /conversations/:id/messages] with role and
    content, aimed at a conversation the caller does not own, should
    answer 404 and create no message. No message is created, but the
    answer is 500: Alice posts to Bob's [c3], at the handler and through
    the router. *)
Theorem post_message_answers_500 :
  let body : gmap string JsVal :=
    {[ "role" := JStr "user"; "content" := JStr "hello" ]} in
  filter (owned_conversation "c3" "u-alice") (conversations (store world))
  = []
  /\ ConversationRoutes.post_message
       (as_alice POST ["c3"; "messages"] {[ "conversationId" := "c3" ]} body)
       world
     = (Normal (internal_error "Failed to save message"
                  "An error occurred while saving the message"), world)
  /\ (dispatch ConversationRoutes.router
        (request POST ["c3"; "messages"] (Some "token") body) world).1
     = Normal (internal_error "Failed to save message"
                 "An error occurred while saving the message")
  /\ messages (store (dispatch ConversationRoutes.router
                        (request POST ["c3"; "messages"] (Some "token") body)
                        world).2)
     = messages (store world).
Proof.
  intros body. split; [reflexivity|].
  split; [by apply (post_message_fails _ _ alice)|].
  split; vm_compute; reflexivity.
Qed.

Lemma signup_missing_field_witness :
  let req := request POST ["signup"] None
               {[ "email" := JStr "carol@example.org" ]} in
  (req_body req !! "email" = None \/ req_body req !! "password" = None)
  /\ dispatch AuthRoutes.router req world =
       (Normal {| status := 400;
                  body := ErrorBody "Missing required fields"
                            "Email and password are required" |}, world)
  /\ calls (dispatch AuthRoutes.router req world).2 = calls world.
Proof.
  intros req.
  assert (req_body req !! "email" = None \/ req_body req !! "password" = None)
    as H by (right; reflexivity).
  split; [exact H|].
  destruct (signup_missing_field req world eq_refl eq_refl H) as (A & B & _).
  split; [exact A|exact B].
Defined.

Lemma archived_conversation_not_listed_witness :
  let req := as_alice DELETE ["c1"] {[ "conversationId" := "c1" ]} ∅ in
  let req' := as_alice GET [] ∅ ∅ in
  (ConversationRoutes.delete_conversation req world).1
  = Normal {| status := 200;
              body := SuccessBody "Conversation archived successfully" |}
  /\ exists l,
      (ConversationRoutes.get_conversations req'
         (ConversationRoutes.delete_conversation req world).2).1
      = Normal {| status := 200; body := ConversationList l (length l) |}
      /\ forall x, x ∈ l -> Conversation.id x <> "c1".
Proof.
  intros req req'.
  assert ((ConversationRoutes.delete_conversation req world).1
          = Normal {| status := 200;
                      body := SuccessBody
                                "Conversation archived successfully" |})
    as H by (vm_compute; reflexivity).
  split; [exact H|].
  destruct (archived_conversation_not_listed req req' world alice
              eq_refl eq_refl) as [_ K].
  destruct (K _ H) as (_ & _ & l & Hl & Hid & _).
  exists l. split; [exact Hl|exact Hid].
Defined.

Lemma put_profile_partial_update_witness :
  let req := as_alice PUT ["profile"] ∅
               {[ "avatarUrl" := JStr "https://img.example/a.png" ]} in
  exists p',
    (AuthRoutes.put_profile req world).1 =
      Normal {| status := 200;
                body := ProfileUpdated "Profile updated successfully"
                          (Some p') |}
    /\ UserProfile.full_name p' = JStr "Alice"
    /\ UserProfile.avatar_url p' = JStr "https://img.example/a.png"
    /\ UserProfile.updated_at p' = 30.
Proof.
  intros req.
  destruct put_profile_partial_update as (_ & _ & K).
  destruct (K req world alice alice_profile (JStr "https://img.example/a.png")
              eq_refl eq_refl eq_refl eq_refl eq_refl eq_refl)
    as (p' & A & B & C & D & _).
  exists p'. split; [exact A|]. split; [exact B|]. split; [exact C|exact D].
Defined.

Lemma created_profile_has_quota_witness :
  (createUserProfile (Some bob) world).1
  = Normal (Some (fresh_profile bob (JStr "bob") 30))
  /\ (checkApiQuota "u-bob" (createUserProfile (Some bob) world).2).1
     = Normal true.
Proof.
  assert ((createUserProfile (Some bob) world).1
          = Normal (Some (fresh_profile bob (JStr "bob") 30)))
    as H by (vm_compute; reflexivity).
  split; [exact H|].
  destruct (created_profile_has_quota _ _ _ H) as (_ & _ & _ & _ & _ & K).
  apply K. vm_compute. reflexivity.
Defined.

End Requests.

(** * Further properties of the adapter and the routes *)

Section Logic.
Import Http.
Context {A B : Type}.

Lemma answers_ret (P : A -> Prop) a : P a -> answers P (ret a).
Proof. intros H w a' w' [= <- _]. exact H. Qed.

Lemma answers_throw (P : A -> Prop) e : answers P (throw e).
Proof. intros w a w' [=]. Qed.

Lemma answers_lift (P : A -> Prop) c :
  (forall a, c = Normal a -> P a) -> answers P (lift c).
Proof. intros H w a w' [= -> _]. by apply H. Qed.

Lemma answers_bind (P : B -> Prop) (m : M A) (k : A -> M B) :
  (forall a, answers P (k a)) -> answers P (bind m k).
Proof.
  intros H w b w'. unfold bind. destruct (m w) as [[a|e] w1]; [|done].
  apply H.
Qed.

Lemma answers_try_catch (P : A -> Prop) (m : M A) h :
  answers P m -> (forall e, answers P (h e)) -> answers P (try_catch m h).
Proof.
  intros Hm Hh w a w'. unfold try_catch.
  destruct (m w) as [[a1|e] w1] eqn:E.
  - intros [= <- <-]. by eapply Hm.
  - apply Hh.
Qed.

Lemma keeps_ret (a : A) : keeps_store (ret a).
Proof. by intros w. Qed.

Lemma keeps_throw e : keeps_store (throw (A:=A) e).
Proof. by intros w. Qed.

Lemma keeps_lift (c : Completion A) : keeps_store (lift c).
Proof. by intros w. Qed.

Lemma keeps_bind (m : M A) (k : A -> M B) :
  keeps_store m -> (forall a, keeps_store (k a)) -> keeps_store (bind m k).
Proof.
  intros Hm Hk w. unfold bind. specialize (Hm w).
  destruct (m w) as [[a|e] w1]; simpl in *; [|done].
  by rewrite Hk.
Qed.

Lemma keeps_try_catch (m : M A) h :
  keeps_store m -> (forall e, keeps_store (h e)) -> keeps_store (try_catch m h).
Proof.
  intros Hm Hh w. unfold try_catch. specialize (Hm w).
  destruct (m w) as [[a|e] w1]; simpl in *; [done|].
  by rewrite Hh.
Qed.
End Logic.

Lemma keeps_now : keeps_store now.
Proof. by intros w. Qed.

Lemma keeps_ident scope x : keeps_store (ident scope x).
Proof. intros w. unfold ident. by destruct (bool_decide _). Qed.

Lemma keeps_auth method : keeps_store (Backend.auth method).
Proof.
  intros w. unfold Backend.auth, Backend.pop_provider.
  destruct (provider w) as [ | [e|e|u s] rs]; reflexivity.
Qed.

(** A chain whose query hands the store back unchanged is a read. *)
Lemma keeps_query {D} table verb
    (run : Timestamp -> Id -> Store -> Backend.Reply D * Store) :
  (forall t i s, (run t i s).2 = s) -> keeps_store (Backend.query table verb run).
Proof.
  intros H w. destruct (next_fault w) as [ | e | e] eqn:E.
  - rewrite (query_no_fault _ _ _ _ E). simpl. apply H.
  - rewrite (query_rejects _ _ _ _ _ E). simpl. apply pop_fault_store.
  - rewrite (query_errors _ _ _ _ _ E). simpl. apply pop_fault_store.
Qed.

Section StatusCodes.
Import Http Backend Supabase.

Lemma responds_intro codes generic (h : Handler) :
  (forall req, never_raises (h req)) ->
  (forall req, answers (answers_only codes generic) (h req)) ->
  responds codes generic h.
Proof.
  intros Hn Ha req w. destruct (Hn req w) as (r & w' & E).
  exists r, w'. split; [exact E|]. by eapply Ha.
Qed.

Ltac in_codes :=
  split; simpl;
  [ repeat (first [left; reflexivity | right])
  | intros ?; first [reflexivity | discriminate] ].

Ltac answers_tac :=
  repeat first
    [ apply answers_try_catch; [|intros ?]
    | apply answers_bind; intros ?
    | apply answers_ret; in_codes
    | apply answers_throw
    | match goal with
      | |- answers _ (if ?b then _ else _) => destruct b
      | |- answers _ (match ?x with _ => _ end) => destruct x
      end ].

Ltac caught :=
  intros; apply try_catch_never_raises; intros ? ?; eexists _, _; reflexivity.

(** X1: every handler of [routes/auth.js] answers every request, with a
    status of its own short list; its 500 body is the fixed generic one,
    whatever went wrong. *)
Theorem auth_routes_status_codes :
  responds [201; 400; 500] (ErrorBody "Internal server error" "An error occurred during signup")
    AuthRoutes.post_signup
  /\ responds [200; 400; 401; 500] (ErrorBody "Internal server error" "An error occurred during signin")
       AuthRoutes.post_signin
  /\ responds [200; 400; 500] (ErrorBody "Internal server error" "An error occurred during signout")
       AuthRoutes.post_signout
  /\ responds [200; 500] (ErrorBody "Internal server error" "An error occurred while fetching profile")
       AuthRoutes.get_profile
  /\ responds [200; 400; 500]
       (ErrorBody "Internal server error" "An error occurred while updating profile")
       AuthRoutes.put_profile
  /\ responds [200; 400; 500]
       (ErrorBody "Internal server error" "An error occurred during password reset")
       AuthRoutes.post_reset_password
  /\ responds [200; 400; 500]
       (ErrorBody "Internal server error" "An error occurred while updating password")
       AuthRoutes.put_password
  /\ responds [200; 400; 401; 500]
       (ErrorBody "Internal server error" "An error occurred during token refresh")
       AuthRoutes.post_refresh
  /\ responds [200] (ErrorBody "Internal server error" "") AuthRoutes.get_health.
Proof.
  repeat split.
  all: try (apply responds_intro; [caught|]; intros req;
            unfold AuthRoutes.post_signup, AuthRoutes.post_signin,
              AuthRoutes.post_signout, AuthRoutes.get_profile,
              AuthRoutes.put_profile, AuthRoutes.post_reset_password,
              AuthRoutes.put_password, AuthRoutes.post_refresh,
              AuthRoutes.internal_error, AuthRoutes.data_user,
              AuthRoutes.data_session, user_id, respond, json;
            cbv zeta; answers_tac).
  intros req w. eexists _, _. split; [reflexivity|]. in_codes.
Qed.

(** The three routes that name the client the module never imported end
    in their catch-all before anything is sent, for every request. *)
Lemma client_routes_eq req w :
  ConversationRoutes.get_conversation req w
  = (Normal {| status := 500;
               body := ErrorBody "Failed to fetch conversation"
                         "An error occurred while fetching the conversation" |},
     w)
  /\ ConversationRoutes.get_messages req w
     = (Normal {| status := 500;
                  body := ErrorBody "Failed to fetch messages"
                            "An error occurred while fetching the messages" |},
        w)
  /\ exists r,
       ConversationRoutes.post_message req w = (Normal r, w)
       /\ (r = {| status := 400;
                  body := ErrorBody "Missing required fields"
                            "Role and content are required" |}
           \/ r = {| status := 500;
                     body := ErrorBody "Failed to save message"
                               "An error occurred while saving the message" |}).
Proof.
  unfold ConversationRoutes.get_conversation, ConversationRoutes.get_messages,
    ConversationRoutes.post_message, try_catch, bind, user_id.
  destruct (req_user req) as [u|]; simpl.
  - split; [done|]. split; [done|].
    destruct (negb _ || negb _); eexists; split; try reflexivity; auto.
  - split; [done|]. split; [done|]. eexists. split; [reflexivity|]. by right.
Qed.

(** X2: every handler of [routes/conversations.js] answers every request,
    with a status of its own short list and, for 500, its fixed body.
    The three handlers that use the client handle answer 500 only (400 or
    500 for the message post) and leave the world as it was. *)
Theorem conversation_routes_status_codes :
  responds [200; 500]
    (ErrorBody "Failed to fetch conversations"
       "An error occurred while fetching your conversations")
    ConversationRoutes.get_conversations
  /\ responds [201; 500]
       (ErrorBody "Failed to create conversation"
          "An error occurred while creating the conversation")
       ConversationRoutes.post_conversation
  /\ responds [200; 404; 500]
       (ErrorBody "Failed to update conversation"
          "An error occurred while updating the conversation")
       ConversationRoutes.put_conversation
  /\ responds [200; 404; 500]
       (ErrorBody "Failed to archive conversation"
          "An error occurred while archiving the conversation")
       ConversationRoutes.delete_conversation
  /\ responds [200] (ErrorBody "" "") ConversationRoutes.get_health
  /\ (forall req w,
        ConversationRoutes.get_conversation req w
        = (Normal {| status := 500;
                     body := ErrorBody "Failed to fetch conversation"
                       "An error occurred while fetching the conversation" |},
           w)
        /\ ConversationRoutes.get_messages req w
           = (Normal {| status := 500;
                        body := ErrorBody "Failed to fetch messages"
                          "An error occurred while fetching the messages" |},
              w)
        /\ exists r,
             ConversationRoutes.post_message req w = (Normal r, w)
             /\ answers_only [400; 500]
                  (ErrorBody "Failed to save message"
                     "An error occurred while saving the message") r).
Proof.
  split; [|split; [|split; [|split; [|split]]]].
  1-4: apply responds_intro; [caught|]; intros req;
    unfold ConversationRoutes.get_conversations,
      ConversationRoutes.post_conversation,
      ConversationRoutes.put_conversation,
      ConversationRoutes.delete_conversation, ConversationRoutes.failure,
      ConversationRoutes.not_found, ConversationRoutes.with_length,
      user_id, respond, json;
    cbv zeta; answers_tac.
  - intros req w. eexists _, _. split; [reflexivity|]. in_codes.
  - intros req w. destruct (client_routes_eq req w) as (E1 & E2 & r & E3 & K).
    split; [exact E1|]. split; [exact E2|]. exists r. split; [exact E3|].
    destruct K as [-> | ->]; in_codes.
Qed.

End StatusCodes.

Section Validation.
Import Http Backend Supabase AuthRoutes.

(** X3: the guards of the auth routes look at truthiness, so an empty
    string, [null], [0] or [false] counts as missing: the request is
    answered 400 and the world is left as it was. *)
Theorem falsy_fields_rejected req w :
  (truthy (field req "email") = false \/ truthy (field req "password") = false ->
   post_signup req w
   = (Normal {| status := 400;
                body := ErrorBody "Missing required fields"
                          "Email and password are required" |}, w)
   /\ post_signin req w
      = (Normal {| status := 400;
                   body := ErrorBody "Missing required fields"
                             "Email and password are required" |}, w))
  /\ (truthy (field req "email") = false ->
      post_reset_password req w
      = (Normal {| status := 400;
                   body := ErrorBody "Missing email"
                             "Email is required for password reset" |}, w))
  /\ (truthy (field req "newPassword") = false ->
      put_password req w
      = (Normal {| status := 400;
                   body := ErrorBody "Missing password"
                             "New password is required" |}, w))
  /\ (truthy (field req "refreshToken") = false ->
      post_refresh req w
      = (Normal {| status := 400;
                   body := ErrorBody "Missing refresh token"
                             "Refresh token is required" |}, w)).
Proof.
  unfold post_signup, post_signin, post_reset_password, put_password,
    post_refresh, try_catch.
  split; [|split; [|split]].
  - intros [-> | ->]; simpl; rewrite ?orb_true_r; done.
  - by intros ->.
  - by intros ->.
  - by intros ->.
Qed.

Lemma falsy_fields_rejected_witness :
  let req := Sample.request POST ["signin"] None
               {[ "email" := JStr ""; "password" := JStr "secret" ]} in
  truthy (field req "email") = false
  /\ post_signin req Sample.world
     = (Normal {| status := 400;
                  body := ErrorBody "Missing required fields"
                            "Email and password are required" |}, Sample.world).
Proof.
  intros req. split; [reflexivity|].
  destruct (falsy_fields_rejected req Sample.world) as (K & _).
  destruct (K (or_introl eq_refl)) as (_ & E). exact E.
Defined.

(** X4: a signup whose [email] is truthy but not a string, sent with a
    password and without a usable [fullName], fails at [email.split]: 500,
    and the provider is never called. *)
Theorem signup_email_not_a_string req w :
  truthy (field req "email") = true ->
  truthy (field req "password") = true ->
  truthy (field req "fullName") = false ->
  (forall s, field req "email" <> JStr s) ->
  post_signup req w
  = (Normal {| status := 500;
               body := ErrorBody "Internal server error"
                         "An error occurred during signup" |}, w).
Proof.
  intros He Hp Hf Hs. unfold post_signup, try_catch, bind at 1.
  rewrite He, Hp, Hf. simpl.
  destruct (field req "email") as [ | | b | n | s | o]; try done.
  by destruct (Hs s).
Qed.

Lemma signup_email_not_a_string_witness :
  let req := Sample.request POST ["signup"] None
               {[ "email" := JNum 42; "password" := JStr "secret" ]} in
  post_signup req Sample.world
  = (Normal {| status := 500;
               body := ErrorBody "Internal server error"
                         "An error occurred during signup" |}, Sample.world).
Proof.
  intros req.
  apply (signup_email_not_a_string req Sample.world); try reflexivity.
  intros s H. vm_compute in H. discriminate H.
Defined.

End Validation.

Section ReadOnly.
Import Http Backend Supabase.

Ltac keeps_tac :=
  repeat first
    [ apply keeps_try_catch; [|intros ?]
    | apply keeps_bind; [|intros ?]
    | apply keeps_ret
    | apply keeps_throw
    | apply keeps_lift
    | apply keeps_now
    | apply keeps_ident
    | apply keeps_auth
    | apply keeps_query; intros; reflexivity
    | match goal with
      | |- keeps_store (if ?b then _ else _) => destruct b
      | |- keeps_store (match ?x with _ => _ end) => destruct x
      end ].

Lemma keeps_verifyToken token : keeps_store (verifyToken token).
Proof. unfold verifyToken. keeps_tac. Qed.

Lemma keeps_getUserProfile userId : keeps_store (getUserProfile userId).
Proof. unfold getUserProfile, select_profile, data_or_throw. keeps_tac. Qed.

Lemma keeps_checkApiQuota userId : keeps_store (checkApiQuota userId).
Proof.
  unfold checkApiQuota. apply keeps_try_catch; [|intros; keeps_tac].
  apply keeps_bind; [apply keeps_getUserProfile|intros; keeps_tac].
Qed.

Lemma keeps_getUserConversations userId :
  keeps_store (getUserConversations userId).
Proof.
  unfold getUserConversations, select_conversations, data_or_throw. keeps_tac.
Qed.

Lemma keeps_getConversationMessages c u :
  keeps_store (getConversationMessages c u).
Proof.
  unfold getConversationMessages, select_messages, data_or_throw. keeps_tac.
Qed.

(** X5: the helpers and the routes that only read leave every table of
    the store as it was, whatever the store and the provider answer. *)
Theorem reads_keep_store :
  (forall token, keeps_store (verifyToken token))
  /\ (forall userId, keeps_store (getUserProfile userId))
  /\ (forall userId, keeps_store (checkApiQuota userId))
  /\ (forall userId, keeps_store (getUserConversations userId))
  /\ (forall c u, keeps_store (getConversationMessages c u))
  /\ (forall req,
        keeps_store (AuthRoutes.post_signin req)
        /\ keeps_store (AuthRoutes.post_signout req)
        /\ keeps_store (AuthRoutes.get_profile req)
        /\ keeps_store (AuthRoutes.post_reset_password req)
        /\ keeps_store (AuthRoutes.put_password req)
        /\ keeps_store (AuthRoutes.post_refresh req)
        /\ keeps_store (AuthRoutes.get_health req)
        /\ keeps_store (ConversationRoutes.get_conversations req)
        /\ keeps_store (ConversationRoutes.get_health req)).
Proof.
  split; [apply keeps_verifyToken|]. split; [apply keeps_getUserProfile|].
  split; [apply keeps_checkApiQuota|].
  split; [apply keeps_getUserConversations|].
  split; [apply keeps_getConversationMessages|].
  intros req.
  unfold AuthRoutes.post_signin, AuthRoutes.post_signout,
    AuthRoutes.get_profile, AuthRoutes.post_reset_password,
    AuthRoutes.put_password, AuthRoutes.post_refresh,
    ConversationRoutes.get_conversations, ConversationRoutes.get_health,
    AuthRoutes.internal_error, ConversationRoutes.failure,
    AuthRoutes.data_user, AuthRoutes.data_session,
    ConversationRoutes.with_length, user_id, respond, json, console_error.
  cbv zeta.
  repeat split.
  all: try (intros w; reflexivity).
  all: repeat first
    [ apply keeps_getUserProfile
    | apply keeps_getUserConversations
    | apply keeps_try_catch; [|intros ?]
    | apply keeps_bind; [|intros ?]
    | apply keeps_ret
    | apply keeps_throw
    | apply keeps_now
    | apply keeps_ident
    | apply keeps_auth
    | match goal with
      | |- keeps_store (if ?b then _ else _) => destruct b
      | |- keeps_store (match ?x with _ => _ end) => destruct x
      end ].
Qed.

End ReadOnly.

Section Calls.
Import Http Backend Supabase.







End Calls.

Section Ownership.
Import Http Backend Supabase.

Lemma updateConversation_cases conversationId userId updates w :
  ((updateConversation conversationId userId updates w).1 = Normal None
   /\ store (updateConversation conversationId userId updates w).2 = store w)
  \/ exists c c',
      next_fault w = NoFault
      /\ filter (owned_conversation conversationId userId)
           (conversations (store w)) = [c]
      /\ update_conversation_row updates c = Some c'
      /\ (updateConversation conversationId userId updates w).1
         = Normal (Some c')
      /\ store (updateConversation conversationId userId updates w).2
         = replace_in conversationId userId c' (store w).
Proof.
  unfold updateConversation, update_conversation, try_catch, bind,
    data_or_throw.
  destruct (next_fault w) as [ | e | e] eqn:E.
  - rewrite (query_no_fault _ _ _ _ E).
    destruct (only_columns _ updates);
      [|left; simpl; split; [done|by destruct (store w)]].
    destruct (filter _ (conversations (store w))) as [ | c [ | q l]] eqn:F;
      try (left; simpl; split; [done|by destruct (store w)]).
    destruct (update_conversation_row updates c) as [c'|] eqn:U;
      [|left; simpl; split; [done|by destruct (store w)]].
    right. by exists c, c'.
  - left. rewrite (query_rejects _ _ _ _ _ E). simpl.
    split; [done|apply pop_fault_store].
  - left. rewrite (query_errors _ _ _ _ _ E). simpl.
    split; [done|apply pop_fault_store].
Qed.

Lemma update_conversation_row_keeps updates c c' :
  update_conversation_row updates c = Some c' ->
  Conversation.id c' = Conversation.id c
  /\ Conversation.user_id c' = Conversation.user_id c
  /\ Conversation.created_at c' = Conversation.created_at c
  /\ Conversation.title c' = default (Conversation.title c) (updates !! "title")
  /\ (updates !! "is_archived" = None ->
      Conversation.is_archived c' = Conversation.is_archived c).
Proof.
  unfold update_conversation_row.
  destruct (updates !! "is_archived") as [v|].
  - destruct (as_boolean v); [|done]. intros [= <-]. by repeat split.
  - intros [= <-]. by repeat split.
Qed.



Lemma put_conversation_eq req w u :
  req_user req = Some u ->
  ConversationRoutes.put_conversation req w =
    match updateConversation (param req "conversationId") (User.id u)
            (ConversationRoutes.conversation_updates (field req "title")
               (field req "isArchived")) w with
    | (Normal (Some c), w1) =>
        (Normal {| status := 200;
                   body := ConversationBody c
                             "Conversation updated successfully" |}, w1)
    | (Normal None, w1) =>
        (Normal {| status := 404;
                   body := ErrorBody "Conversation not found"
    "The requested conversation does not exist or you do not have access to it" |},
         w1)
    | (Throw e, w1) =>
        (Normal {| status := 500;
                   body := ErrorBody "Failed to update conversation"
                     "An error occurred while updating the conversation" |},
         w1)
    end.
Proof.
  intros Hu. unfold ConversationRoutes.put_conversation, try_catch, bind,
    user_id. rewrite Hu. cbv beta iota delta [ret].
  change (ident ConversationRoutes.scope "updateConversation" w)
    with (Normal tt, w). cbv beta iota.
  by destruct (updateConversation _ _ _ w) as [[[c|]|e] w1].
Qed.

Lemma conversation_updates_lookup title isArchived :
  ConversationRoutes.conversation_updates title isArchived !! "title"
  = (if defined title then Some title else None)
  /\ ConversationRoutes.conversation_updates title isArchived !! "is_archived"
     = (if defined isArchived then Some isArchived else None).
Proof.
  unfold ConversationRoutes.conversation_updates.
  destruct (defined title), (defined isArchived); by simplify_map_eq.
Qed.

(** X8: for an authenticated caller [PUT /:conversationId] answers 404 and
    changes nothing when the caller owns no row with that id -- also when
    the id is another user's conversation. It answers 200 only for the
    caller's own row, with the row as updated: the title is the body's when
    the body defines one, and the archived flag is untouched when the body
    has no [isArchived]. *)
Theorem put_conversation_scoped req w u :
  req_user req = Some u ->
  let conversationId := param req "conversationId" in
  let userId := User.id u in
  let after := (ConversationRoutes.put_conversation req w).2 in
  (filter (owned_conversation conversationId userId)
     (conversations (store w)) = [] ->
   (exists b, (ConversationRoutes.put_conversation req w).1
              = Normal {| status := 404; body := b |})
   /\ store after = store w)
  /\ (forall b,
        (ConversationRoutes.put_conversation req w).1
        = Normal {| status := 200; body := b |} ->
        exists c c',
          filter (owned_conversation conversationId userId)
            (conversations (store w)) = [c]
          /\ b = ConversationBody c' "Conversation updated successfully"
          /\ owned_conversation conversationId userId c'
          /\ Conversation.title c'
             = (if defined (field req "title") then field req "title"
                else Conversation.title c)
          /\ (field req "isArchived" = JUndefined ->
              Conversation.is_archived c' = Conversation.is_archived c)
          /\ store after = replace_in conversationId userId c' (store w)).
Proof.
  intros Hu conversationId userId after. subst after.
  rewrite (put_conversation_eq _ _ _ Hu). fold conversationId userId.
  destruct (updateConversation_cases conversationId userId
              (ConversationRoutes.conversation_updates (field req "title")
                 (field req "isArchived")) w)
    as [[E S]|(c & c' & _ & F & U & E & S)].
  - destruct (updateConversation _ _ _ w) as [r w1]. simpl in E, S. subst r.
    split; [|done]. intros _. split; [by eexists|done].
  - destruct (updateConversation _ _ _ w) as [r w1]. simpl in E, S. subst r.
    split; [by rewrite F|].
    intros b [= <-]. exists c, c'. split; [done|]. split; [done|].
    destruct (update_conversation_row_keeps _ _ _ U) as (Hi & Hus & _ & Ht & Ha).
    destruct (conversation_updates_lookup (field req "title")
                (field req "isArchived")) as (Lt & La).
    assert (owned_conversation conversationId userId c) as [H1 H2].
    { assert (c ∈ filter (owned_conversation conversationId userId)
                    (conversations (store w))) as Hin by (rewrite F; left).
      by apply list_elem_of_filter in Hin as [? _]. }
    split; [split; congruence|]. split.
    + rewrite Ht, Lt. by destruct (defined _).
    + split; [|done]. intros Hun. apply Ha. rewrite La, Hun. done.
Qed.

Lemma put_conversation_scoped_witness :
  let req := Sample.as_alice PUT ["c3"] {[ "conversationId" := "c3" ]}
               {[ "title" := JStr "Mine now" ]} in
  filter (owned_conversation "c3" "u-alice")
    (conversations (store Sample.world)) = []
  /\ (exists b, (ConversationRoutes.put_conversation req Sample.world).1
               = Normal {| status := 404; body := b |})
  /\ store (ConversationRoutes.put_conversation req Sample.world).2
     = store Sample.world.
Proof.
  intros req. split; [reflexivity|].
  destruct (put_conversation_scoped req Sample.world Sample.alice eq_refl)
    as [K _].
  exact (K eq_refl).
Defined.

End Ownership.

Section RoundTrips.
Import Http Backend Supabase.

Lemma truthy_defined v : truthy v = true -> defined v = true.
Proof. by destruct v. Qed.

(** [createConversation] when the store call does not fail. *)
Lemma createConversation_ok userId title threadId w :
  next_fault w = NoFault ->
  let c := {| Conversation.id := fresh_id (next_id w);
              Conversation.user_id := userId;
              Conversation.title :=
                param_default title (JStr "New Conversation");
              Conversation.thread_id := param_default threadId JNull;
              Conversation.is_archived := false;
              Conversation.created_at := clock w;
              Conversation.updated_at := clock w |} in
  (createConversation userId title threadId w).1 = Normal (Some c)
  /\ store (createConversation userId title threadId w).2
     = with_conversations (conversations (store w) ++ [c]) (store w).
Proof.
  intros E c. unfold createConversation, insert_conversation, try_catch, bind,
    data_or_throw.
  by rewrite (query_no_fault _ _ _ _ E).
Qed.

Lemma post_conversation_eq req w u :
  req_user req = Some u ->
  ConversationRoutes.post_conversation req w =
    match createConversation (User.id u)
            (or_else (field req "title") (fun _ => JStr "New Conversation"))
            (field req "threadId") w with
    | (Normal (Some c), w1) =>
        (Normal {| status := 201;
                   body := ConversationBody c
                             "Conversation created successfully" |}, w1)
    | (_, w1) =>
        (Normal {| status := 500;
                   body := ErrorBody "Failed to create conversation"
                     "An error occurred while creating the conversation" |},
         w1)
    end.
Proof.
  intros Hu. unfold ConversationRoutes.post_conversation, try_catch, bind,
    user_id. rewrite Hu. cbv beta iota delta [ret].
  change (ident ConversationRoutes.scope "createConversation" w)
    with (Normal tt, w). cbv beta iota.
  by destruct (createConversation _ _ _ w) as [[[c|]|e] w1].
Qed.

(** X9: when the store call does not fail, [POST /] by an authenticated
    caller answers 201 with a new row that is the caller's, not archived,
    titled as the body says or "New Conversation" when the body's title is
    missing or falsy, and appended to the table; a [GET /] by the same
    caller that follows, its store call not failing, lists it. *)
Theorem created_conversation_listed req req' w u :
  req_user req = Some u ->
  req_user req' = Some u ->
  next_fault w = NoFault ->
  let after := (ConversationRoutes.post_conversation req w).2 in
  exists c,
    (ConversationRoutes.post_conversation req w).1
    = Normal {| status := 201;
                body := ConversationBody c
                          "Conversation created successfully" |}
    /\ Conversation.user_id c = User.id u
    /\ Conversation.is_archived c = false
    /\ Conversation.title c
       = (if truthy (field req "title") then field req "title"
          else JStr "New Conversation")
    /\ Conversation.thread_id c
       = (if defined (field req "threadId") then field req "threadId"
          else JNull)
    /\ conversations (store after) = (conversations (store w) ++ [c])%list
    /\ (next_fault after = NoFault ->
        exists l,
          (ConversationRoutes.get_conversations req' after).1
          = Normal {| status := 200; body := ConversationList l (length l) |}
          /\ c ∈ l
          /\ forall x, x ∈ listed (User.id u) (store w) -> x ∈ l).
Proof.
  intros Hu Hu' E after. subst after.
  rewrite (post_conversation_eq _ _ _ Hu).
  destruct (createConversation_ok (User.id u)
              (or_else (field req "title") (fun _ => JStr "New Conversation"))
              (field req "threadId") w E) as [Hr Hs].
  destruct (createConversation _ _ _ w) as [r w1]. simpl in Hr, Hs. subst r.
  eexists. split; [reflexivity|]. simpl.
  split; [done|]. split; [done|]. split.
  { unfold or_else, param_default.
    destruct (truthy (field req "title")) eqn:T; [|done].
    by rewrite (truthy_defined _ T). }
  split; [done|]. split; [by rewrite Hs|].
  intros E1. eexists. split; [by apply get_conversations_eq|].
  rewrite E1. cbv zeta. rewrite Hs.
  split.
  - rewrite merge_sort_Permutation. unfold listed. simpl.
    rewrite !list_elem_of_filter. repeat split; try done.
    apply elem_of_app. right. by left.
  - intros x Hx. rewrite merge_sort_Permutation. unfold listed in *. simpl.
    rewrite !list_elem_of_filter in Hx. rewrite !list_elem_of_filter.
    destruct Hx as (Ha & Hb & Hc). repeat split; try done.
    apply elem_of_app. by left.
Qed.

Lemma created_conversation_listed_witness :
  let req := Sample.as_alice POST [] ∅ {[ "title" := JStr "" ]} in
  let req' := Sample.as_alice GET [] ∅ ∅ in
  exists c,
    (ConversationRoutes.post_conversation req Sample.world).1
    = Normal {| status := 201;
                body := ConversationBody c
                          "Conversation created successfully" |}
    /\ Conversation.title c = JStr "New Conversation"
    /\ exists l,
        (ConversationRoutes.get_conversations req'
           (ConversationRoutes.post_conversation req Sample.world).2).1
        = Normal {| status := 200; body := ConversationList l (length l) |}
        /\ c ∈ l.
Proof.
  intros req req'.
  destruct (created_conversation_listed req req' Sample.world Sample.alice
              eq_refl eq_refl eq_refl) as (c & A & _ & _ & T & _ & _ & K).
  exists c. split; [exact A|]. split; [exact T|].
  destruct (K eq_refl) as (l & Hl & Hc & _). exists l. by split.
Defined.

End RoundTrips.

Section Messages.
Import Http Backend Supabase.

(** X10: when the store call does not fail, [saveMessage] returns the
    new row -- for the conversation and user given, with the role and
    content given and [{}] for an undefined metadata -- and appends it to
    the table without looking at the conversations; a
    [getConversationMessages] for the same conversation and user that
    follows, its store call not failing, returns it together with the
    messages that were there. *)
Theorem saved_message_returned conversationId userId role content metadata w :
  next_fault w = NoFault ->
  let after :=
    (saveMessage conversationId userId role content metadata w).2 in
  let m := {| Message.id := fresh_id (next_id w);
              Message.conversation_id := conversationId;
              Message.user_id := userId; Message.role := role;
              Message.content := content;
              Message.metadata :=
                (if defined metadata then metadata else JObj "{}");
              Message.created_at := clock w |} in
  (saveMessage conversationId userId role content metadata w).1
  = Normal (Some m)
  /\ messages (store after) = (messages (store w) ++ [m])%list
  /\ conversations (store after) = conversations (store w)
  /\ (next_fault after = NoFault ->
      exists l,
        (getConversationMessages conversationId userId after).1
        = Normal (Some l)
        /\ m ∈ l
        /\ forall x, x ∈ messages_of conversationId userId (store w) -> x ∈ l).
Proof.
  intros E after m. subst after.
  assert (saveMessage conversationId userId role content metadata w
          = (Normal (Some m),
             with_store (with_messages (messages (store w) ++ [m]) (store w))
               (step (Some (DbCall "messages" "insert")) (pop_fault w).2)))
    as ->.
  { unfold saveMessage, insert_message, try_catch, bind, data_or_throw.
    by rewrite (query_no_fault _ _ _ _ E). }
  simpl. split; [done|]. split; [done|]. split; [done|].
  intros E1. eexists. split; [apply getConversationMessages_result|].
  rewrite E1. unfold messages_of. simpl. split.
  - rewrite merge_sort_Permutation, !list_elem_of_filter.
    repeat split; try done. apply elem_of_app. right. by left.
  - intros x. rewrite merge_sort_Permutation, !list_elem_of_filter.
    intros (Ha & Hb & Hc). repeat split; try done. apply elem_of_app. by left.
Qed.

Lemma saved_message_returned_witness :
  exists m l,
    (saveMessage "c1" "u-alice" (JStr "assistant") (JStr "hi") JUndefined
       Sample.world).1 = Normal (Some m)
    /\ Message.metadata m = JObj "{}"
    /\ (getConversationMessages "c1" "u-alice"
          (saveMessage "c1" "u-alice" (JStr "assistant") (JStr "hi") JUndefined
             Sample.world).2).1 = Normal (Some l)
    /\ m ∈ l.
Proof.
  destruct (saved_message_returned "c1" "u-alice" (JStr "assistant")
              (JStr "hi") JUndefined Sample.world eq_refl) as (A & _ & _ & K).
  destruct (K eq_refl) as (l & Hl & Hm & _).
  eexists _, l. split; [exact A|]. split; [reflexivity|]. by split.
Defined.




End Messages.

Section Provider.
Import Http Backend Supabase AuthRoutes.

Lemma auth_reply method w reply :
  next_reply w = Some reply ->
  exists w1,
    auth method w = (provider_answer reply, w1)
    /\ store w1 = store w /\ faults w1 = faults w /\ clock w1 = clock w + 1.
Proof.
  unfold next_reply, auth, pop_provider.
  destruct (provider w) as [ | r rs]; [done|]. simpl. intros [= ->].
  destruct reply; eexists; (split; [reflexivity|]); by simpl.
Qed.

(** X12: an error the provider reports is passed on with its message and
    the route's own status: 400 for signup, signout, password reset and
    password update, 401 for signin and refresh. *)
Theorem provider_error_passed_on req w e :
  next_reply w = Some (ProviderError e) ->
  (truthy (field req "email") = true ->
   truthy (field req "password") = true ->
   (truthy (field req "fullName") = true
    \/ exists s, field req "email" = JStr s) ->
   (post_signup req w).1
   = Normal {| status := 400;
               body := ErrorBody "Signup failed" (Js.message e) |})
  /\ (truthy (field req "email") = true ->
      truthy (field req "password") = true ->
      (post_signin req w).1
      = Normal {| status := 401;
                  body := ErrorBody "Authentication failed" (Js.message e) |})
  /\ (post_signout req w).1
     = Normal {| status := 400;
                 body := ErrorBody "Signout failed" (Js.message e) |}
  /\ (truthy (field req "email") = true ->
      (post_reset_password req w).1
      = Normal {| status := 400;
                  body := ErrorBody "Password reset failed" (Js.message e) |})
  /\ (truthy (field req "newPassword") = true ->
      (put_password req w).1
      = Normal {| status := 400;
                  body := ErrorBody "Password update failed" (Js.message e) |})
  /\ (truthy (field req "refreshToken") = true ->
      (post_refresh req w).1
      = Normal {| status := 401;
                  body := ErrorBody "Token refresh failed" (Js.message e) |}).
Proof.
  intros Hr.
  assert (forall method, exists w1,
             auth method w = (provider_answer (ProviderError e), w1)) as Ha.
  { intros method. destruct (auth_reply method w _ Hr) as (w1 & E & _).
    by exists w1. }
  unfold post_signup, post_signin, post_signout, post_reset_password,
    put_password, post_refresh, try_catch, bind.
  change (ident scope "supabase" w) with (Normal tt, w). cbv beta iota.
  split; [|split; [|split; [|split; [|split]]]].
  - intros -> -> Hn. simpl.
    destruct (Ha "signUp") as (w1 & E).
    assert (exists name,
               (if truthy (field req "fullName") then ret (field req "fullName")
                else lift (split_at_first (field req "email"))) w
               = (Normal name, w)) as [name ->].
    { destruct Hn as [-> | [s ->]]; [by eexists|].
      destruct (truthy (field req "fullName")); by eexists. }
    by rewrite E.
  - intros -> ->. simpl. destruct (Ha "signInWithPassword") as (w1 & ->). done.
  - destruct (Ha "signOut") as (w1 & ->). done.
  - intros ->. simpl. destruct (Ha "resetPasswordForEmail") as (w1 & ->). done.
  - intros ->. simpl. destruct (Ha "updateUser") as (w1 & ->). done.
  - intros ->. simpl. destruct (Ha "refreshSession") as (w1 & ->). done.
Qed.

Lemma provider_error_passed_on_witness :
  let w := with_provider [ProviderError (BackendError "Invalid login credentials")]
             Sample.world in
  let req := Sample.request POST ["signin"] None
               {[ "email" := JStr "alice@example.org";
                  "password" := JStr "wrong" ]} in
  (post_signin req w).1
  = Normal {| status := 401;
              body := ErrorBody "Authentication failed"
                        "Invalid login credentials" |}.
Proof.
  intros w req.
  destruct (provider_error_passed_on req w
              (BackendError "Invalid login credentials") eq_refl)
    as (_ & K & _).
  exact (K eq_refl eq_refl).
Defined.

End Provider.

Section Accounts.
Import Http Backend Supabase AuthRoutes.





End Accounts.

Section Names.
Import Http Backend Supabase AuthRoutes.

Lemma name_step u w :
  (if truthy (metadata_full_name u) then ret (metadata_full_name u)
   else lift (split_at_first (User.email u))) w
  = (match profile_name u with
     | Some name => Normal name
     | None => split_at_first (User.email u)
     end, w).
Proof.
  unfold profile_name. destruct (truthy _); [done|].
  unfold lift. by destruct (User.email u).
Qed.

Lemma name_none_throws u :
  profile_name u = None -> exists e, split_at_first (User.email u) = Throw e.
Proof.
  unfold profile_name. destruct (truthy _); [done|].
  destruct (User.email u); try done; by eexists.
Qed.

Lemma createUserProfile_no_name user w :
  user = None \/ (exists u, user = Some u /\ profile_name u = None) ->
  createUserProfile user w = (Normal None, w).
Proof.
  intros [-> | (u & -> & N)]; [done|].
  unfold createUserProfile, try_catch, bind at 1. rewrite name_step, N.
  by destruct (name_none_throws u N) as [e ->].
Qed.

(** [s.split(sep)[0]] is the text before the first separator. *)
Lemma before_app sep a b :
  (forall c, In c (list_ascii_of_string a) -> c <> sep) ->
  before sep (a ++ String sep b) = a.
Proof.
  induction a as [ | c a IH]; simpl; intros H.
  - by rewrite Ascii.eqb_refl.
  - destruct (Ascii.eqb c sep) eqn:E.
    + apply Ascii.eqb_eq in E. destruct (H c); auto.
    + f_equal. apply IH. intros x Hx. apply H. by right.
Qed.

Lemma before_none sep a :
  (forall c, In c (list_ascii_of_string a) -> c <> sep) -> before sep a = a.
Proof.
  induction a as [ | c a IH]; simpl; intros H; [done|].
  destruct (Ascii.eqb c sep) eqn:E.
  - apply Ascii.eqb_eq in E. destruct (H c); auto.
  - f_equal. apply IH. intros x Hx. apply H. by right.
Qed.

(** X14: the profile [createUserProfile] creates carries the user's id
    and email, and for its name the metadata's [full_name] when that is
    truthy, else the email up to its first [@] (the whole email when it
    has none). For a [null] user, or a user without a usable name whose
    email is no string, it returns [null] without any call. *)
Theorem created_profile_name :
  (forall user w p,
      (createUserProfile user w).1 = Normal (Some p) ->
      exists u,
        user = Some u
        /\ UserProfile.id p = User.id u
        /\ UserProfile.email p = User.email u
        /\ profile_name u = Some (UserProfile.full_name p))
  /\ (forall user w,
        user = None \/ (exists u, user = Some u /\ profile_name u = None) ->
        createUserProfile user w = (Normal None, w))
  /\ (forall u local domain,
        metadata_full_name u = JUndefined ->
        User.email u = JStr (local ++ String "@" domain) ->
        (forall c, In c (list_ascii_of_string local) -> c <> "@"%char) ->
        profile_name u = Some (JStr local))
  /\ (forall u s,
        metadata_full_name u = JUndefined ->
        User.email u = JStr s ->
        (forall c, In c (list_ascii_of_string s) -> c <> "@"%char) ->
        profile_name u = Some (JStr s)).
Proof.
  split; [|split; [|split]].
  - intros [u|] w p; [|simpl; intros ?; discriminate].
    remember (createUserProfile (Some u) w) as res eqn:R. revert R.
    unfold createUserProfile, try_catch, bind at 1. rewrite name_step.
    destruct (profile_name u) as [name|] eqn:N.
    + unfold bind, insert_profile.
      destruct (next_fault w) as [ | e | e] eqn:E.
      * rewrite (query_no_fault _ _ _ _ E).
        destruct (filter _ (user_profiles (store w))) as [ | q l];
          simpl; intros ->; simpl; [|intros ?; discriminate].
        intros [= <-]. by exists u.
      * rewrite (query_rejects _ _ _ _ _ E). intros ->. simpl.
        intros ?; discriminate.
      * rewrite (query_errors _ _ _ _ _ E). intros ->. simpl.
        intros ?; discriminate.
    + destruct (name_none_throws u N) as [e ->]. intros ->. simpl.
      intros ?; discriminate.
  - intros user w. apply createUserProfile_no_name.
  - intros u local domain Hm He Hl. unfold profile_name.
    rewrite Hm, He. simpl. by rewrite before_app.
  - intros u s Hm He Hl. unfold profile_name.
    rewrite Hm, He. simpl. by rewrite before_none.
Qed.

Lemma created_profile_name_witness :
  profile_name Sample.bob = Some (JStr "bob")
  /\ (createUserProfile (Some Sample.bob) Sample.world).1
     = Normal (Some (fresh_profile Sample.bob (JStr "bob") 30)).
Proof.
  destruct created_profile_name as (K & _ & N & _).
  assert (profile_name Sample.bob = Some (JStr "bob")) as H.
  { apply (N Sample.bob "bob" "example.org"); try reflexivity.
    simpl. intros c [<- | [<- | [<- | []]]]; discriminate. }
  split; [exact H|]. vm_compute. reflexivity.
Defined.

End Names.

Section Signup.
Import Http Backend Supabase AuthRoutes.





End Signup.

Section More.
Import Http Backend Supabase.

(** X16: [GET /health] on the auth router reaches its handler for every
    request, with or without a token: 200, status "OK", and
    [supabase_configured] true exactly when both the URL and the anon key
    of the environment are non-empty. *)
Theorem auth_health_reports_configuration req w :
  req_method req = GET ->
  req_path req = ["health"] ->
  dispatch AuthRoutes.router req w =
    (Normal {| status := 200;
               body := HealthBody "OK" "Authentication API"
                         (Some (truthy (SUPABASE_URL (env w))
                                && truthy (SUPABASE_ANON_KEY (env w))))
                         (clock w) |},
     step None w).
Proof.
  intros Hm Hp. unfold AuthRoutes.router, dispatch. simpl route_method.
  by rewrite Hm, Hp.
Qed.

Lemma auth_health_reports_configuration_witness :
  (dispatch AuthRoutes.router
     (Sample.request GET ["health"] (Some "not a token") ∅)
     (with_provider [] Sample.world)).1
  = Normal {| status := 200;
              body := HealthBody "OK" "Authentication API" (Some true) 30 |}.
Proof.
  by rewrite (auth_health_reports_configuration
                (Sample.request GET ["health"] (Some "not a token") ∅)
                (with_provider [] Sample.world) eq_refl eq_refl).
Defined.





End More.

Section Archive2.
Import Http Backend Supabase ConversationRoutes.

Lemma archive_in_twice conversationId userId c s :
  owned_conversation conversationId userId c ->
  archive_in conversationId userId (archived c)
    (archive_in conversationId userId c s)
  = archive_in conversationId userId c s.
Proof.
  intros Hc. unfold archive_in, with_conversations. simpl. f_equal.
  rewrite map_map. apply map_ext. intros x.
  destruct (decide (owned_conversation conversationId userId x)) as [Hx|Hx].
  - by rewrite decide_True.
  - by rewrite decide_False.
Qed.

Lemma with_store_twice s1 s2 w : with_store s1 (with_store s2 w) = with_store s1 w.
Proof. reflexivity. Qed.

(** X18: archiving is idempotent. After a [DELETE /:conversationId]
    answered 200, the same request again (its store call not failing) is
    answered 200 again -- the lookup does not look at the archived flag --
    and leaves every table as the first one left it. *)
Theorem archive_twice req w u :
  req_user req = Some u ->
  let after := (delete_conversation req w).2 in
  (exists b, (delete_conversation req w).1
             = Normal {| status := 200; body := b |}) ->
  next_fault after = NoFault ->
  (delete_conversation req after).1
  = Normal {| status := 200;
              body := SuccessBody "Conversation archived successfully" |}
  /\ store (delete_conversation req after).2 = store after.
Proof.
  intros Hu after [b Hb] E. subst after. revert Hb E.
  rewrite (delete_conversation_eq req w u Hu).
  destruct (next_fault w) as [ | e | e]; [|done|done].
  destruct (filter _ (conversations (store w))) as [ | c [ | c' l]] eqn:F;
    [done| |done].
  cbn [fst snd]. intros _. set (w1 := with_store _ _). intros E.
  assert (owned_conversation (param req "conversationId") (User.id u) c)
    as Hc.
  { assert (c ∈ filter (owned_conversation (param req "conversationId")
                          (User.id u)) (conversations (store w)))
      as Hin by (rewrite F; left).
    by apply list_elem_of_filter in Hin as [? _]. }
  rewrite (delete_conversation_eq req w1 u Hu), E.
  assert (filter (owned_conversation (param req "conversationId") (User.id u))
            (conversations (store w1)) = [archived c]) as F1.
  { subst w1. simpl.
    rewrite (filter_replace
               (owned_conversation (param req "conversationId") (User.id u))
               (archived c)) by (destruct Hc; by split).
    by rewrite F. }
  rewrite F1. simpl. split; [done|].
  subst w1. simpl. by apply archive_in_twice.
Qed.

Lemma archive_twice_witness :
  let req := Sample.as_alice DELETE ["c1"] {[ "conversationId" := "c1" ]} ∅ in
  let after := (delete_conversation req Sample.world).2 in
  (delete_conversation req after).1
  = Normal {| status := 200;
              body := SuccessBody "Conversation archived successfully" |}
  /\ store (delete_conversation req after).2 = store after.
Proof.
  intros req after.
  apply (archive_twice req Sample.world Sample.alice eq_refl).
  - eexists. vm_compute. reflexivity.
  - reflexivity.
Defined.

Lemma updateConversation_ok conversationId userId updates c c' w :
  next_fault w = NoFault ->
  only_columns ["title"; "is_archived"] updates = true ->
  filter (owned_conversation conversationId userId)
    (conversations (store w)) = [c] ->
  update_conversation_row updates c = Some c' ->
  updateConversation conversationId userId updates w
  = (Normal (Some c'),
     with_store (replace_in conversationId userId c' (store w))
       (step (Some (DbCall "conversations" "update")) (pop_fault w).2)).
Proof.
  intros E O F U. unfold updateConversation, update_conversation, try_catch,
    bind, data_or_throw.
  by rewrite (query_no_fault _ _ _ _ E), O, F, U.
Qed.

(** X19: [PUT /:conversationId] with a boolean [isArchived] and no title
    sets the flag of the caller's row and nothing else. With [false] on an
    archived conversation it undoes the archiving: the [GET /] that
    follows lists the conversation again; with [true] it hides it as
    [DELETE] does. *)
Theorem put_archived_flag req req' w u c b :
  req_user req = Some u ->
  req_user req' = Some u ->
  field req "title" = JUndefined ->
  field req "isArchived" = JBool b ->
  next_fault w = NoFault ->
  filter (owned_conversation (param req "conversationId") (User.id u))
    (conversations (store w)) = [c] ->
  let after := (put_conversation req w).2 in
  (put_conversation req w).1
  = Normal {| status := 200;
              body := ConversationBody (flagged b c)
                        "Conversation updated successfully" |}
  /\ store after
     = replace_in (param req "conversationId") (User.id u) (flagged b c)
         (store w)
  /\ (next_fault after = NoFault ->
      exists l,
        (get_conversations req' after).1
        = Normal {| status := 200; body := ConversationList l (length l) |}
        /\ (flagged b c ∈ l <-> b = false)).
Proof.
  intros Hu Hu' Ht Ha E F after. subst after.
  rewrite (put_conversation_eq _ _ _ Hu), Ht, Ha.
  assert (only_columns ["title"; "is_archived"]
            (conversation_updates JUndefined (JBool b)) = true) as O
    by (by destruct b).
  assert (update_conversation_row (conversation_updates JUndefined (JBool b)) c
          = Some (flagged b c)) as U by (by destruct b).
  rewrite (updateConversation_ok _ _ _ _ _ _ E O F U). cbn [fst snd].
  split; [done|]. split; [done|].
  intros E1. eexists. split; [by apply get_conversations_eq|].
  rewrite E1. cbv zeta. rewrite merge_sort_Permutation.
  unfold listed. rewrite !list_elem_of_filter. simpl.
  assert (owned_conversation (param req "conversationId") (User.id u) c)
    as [Hi Hus].
  { assert (c ∈ filter (owned_conversation (param req "conversationId")
                          (User.id u)) (conversations (store w)))
      as Hin by (rewrite F; left).
    by apply list_elem_of_filter in Hin as [? _]. }
  split; [tauto|]. intros ->. split; [done|]. split; [done|].
  assert (c ∈ conversations (store w)) as Hin.
  { assert (c ∈ filter (owned_conversation (param req "conversationId")
                          (User.id u)) (conversations (store w)))
      as Hin by (rewrite F; left).
    by apply list_elem_of_filter in Hin as [_ ?]. }
  apply list_elem_of_In, in_map_iff. exists c.
  split; [|by apply list_elem_of_In].
  rewrite decide_True by (by split). done.
Qed.

Lemma put_archived_flag_witness :
  let del := Sample.as_alice DELETE ["c1"] {[ "conversationId" := "c1" ]} ∅ in
  let put := Sample.as_alice PUT ["c1"] {[ "conversationId" := "c1" ]}
               {[ "isArchived" := JBool false ]} in
  let get := Sample.as_alice GET [] ∅ ∅ in
  let w1 := (delete_conversation del Sample.world).2 in
  exists l,
    (get_conversations get (put_conversation put w1).2).1
    = Normal {| status := 200; body := ConversationList l (length l) |}
    /\ Sample.conversation "c1" "u-alice" false 10 ∈ l.
Proof.
  intros del put get w1.
  destruct (put_archived_flag put get w1 Sample.alice
              (Sample.conversation "c1" "u-alice" true 10) false
              eq_refl eq_refl eq_refl eq_refl eq_refl eq_refl)
    as (_ & _ & K).
  destruct (K eq_refl) as (l & Hl & Hin). exists l. split; [exact Hl|].
  by apply Hin.
Defined.

End Archive2.

Section ProfileErrors.
Import Http Backend Supabase AuthRoutes.

(** X20: how [PUT /profile] fails for an authenticated caller. An error
    the store reports comes back as 400 with the store's message, and so
    does the update of a user who has no profile row; a rejected call
    comes back as 500 with the generic body. In each case no row
    changes. *)
Theorem put_profile_failures req w u :
  req_user req = Some u ->
  let after := (put_profile req w).2 in
  (forall e, next_fault w = Errors e ->
     (put_profile req w).1
     = Normal {| status := 400;
                 body := ErrorBody "Profile update failed" (Js.message e) |}
     /\ store after = store w)
  /\ (next_fault w = NoFault ->
      filter (fun p => UserProfile.id p = User.id u)
        (user_profiles (store w)) = [] ->
      (put_profile req w).1
      = Normal {| status := 400;
                  body := ErrorBody "Profile update failed"
                            (Js.message no_single_row) |}
      /\ store after = store w)
  /\ (forall e, next_fault w = Rejects e ->
        (put_profile req w).1
        = Normal {| status := 500;
                    body := ErrorBody "Internal server error"
                              "An error occurred while updating profile" |}
        /\ store after = store w).
Proof.
  intros Hu after. subst after. rewrite (put_profile_eq _ _ _ Hu).
  unfold update_profile.
  split; [|split].
  - intros e E. rewrite <- (next_fault_step None) in E.
    rewrite (query_errors _ _ _ _ _ E). simpl. split; [done|].
    by rewrite pop_fault_store.
  - intros E F. rewrite <- (next_fault_step None) in E.
    rewrite (query_no_fault _ _ _ _ E). simpl.
    rewrite profile_updates_columns, F. simpl. split; [done|].
    by destruct (store w).
  - intros e E. rewrite <- (next_fault_step None) in E.
    rewrite (query_rejects _ _ _ _ _ E). simpl. split; [done|].
    by rewrite pop_fault_store.
Qed.

Lemma put_profile_failures_witness :
  let req := {| req_method := PUT; req_path := ["profile"];
                req_bearer := Some "token";
                req_body := {[ "fullName" := JStr "Bob" ]};
                req_params := ∅; req_user := Some Sample.bob;
                req_profile := None |} in
  (put_profile req Sample.world).1
  = Normal {| status := 400;
              body := ErrorBody "Profile update failed"
                        (Js.message no_single_row) |}
  /\ store (put_profile req Sample.world).2 = store Sample.world.
Proof.
  intros req.
  destruct (put_profile_failures req Sample.world Sample.bob eq_refl)
    as (_ & K & _).
  exact (K eq_refl eq_refl).
Defined.

End ProfileErrors.
